(** * Code block labels: the markdown post-processor of [src/main.ts]

    A shallow embedding of the plugin's label extraction and application
    routine, of the header regular expression it relies on, and of the
    settings merge done at load time.

    JavaScript strings are sequences of UTF-16 code units; they are modelled
    as [list N].  Values that may be [undefined] are modelled as [option].
    Statements that may throw run in the [Completion] monad. *)

From Stdlib Require Import ZArith NArith Ascii String List Bool Lia.
From stdpp Require Import gmap strings list fin_maps.

Local Open Scope N_scope.

(** ** Strings *)

Module JSString.

(** The code units of an ASCII literal of the source. *)
Definition js (s : string) : list N :=
  List.map N_of_ascii (list_ascii_of_string s).

(** WhiteSpace and LineTerminator code units: what [String.prototype.trim]
    strips and what the class escape [\s] matches. *)
Definition is_ws (c : N) : bool :=
  (c =? 9) || (c =? 10) || (c =? 11) || (c =? 12) || (c =? 13) ||
  (c =? 32) || (c =? 160) || (c =? 5760) ||
  ((8192 <=? c) && (c <=? 8202)) ||
  (c =? 8232) || (c =? 8233) || (c =? 8239) || (c =? 8287) ||
  (c =? 12288) || (c =? 65279).

Fixpoint trimStart (s : list N) : list N :=
  match s with
  | c :: s' => if is_ws c then trimStart s' else s
  | [] => []
  end.

Definition trimEnd (s : list N) : list N :=
  rev (trimStart (rev s)).

(** [s.trim()] *)
Definition trim (s : list N) : list N := trimEnd (trimStart s).

(** [s.split(sep)] for a one-character separator: never the empty array. *)
Fixpoint split (sep : N) (s : list N) : list (list N) :=
  match s with
  | [] => [[]]
  | c :: s' =>
      if c =? sep then [] :: split sep s'
      else match split sep s' with
           | h :: t => (c :: h) :: t
           | [] => [[c]]
           end
  end.

(** [s.startsWith(p)] *)
Fixpoint startsWith (s p : list N) : bool :=
  match p, s with
  | [], _ => true
  | _ :: _, [] => false
  | a :: p', c :: s' => (c =? a) && startsWith s' p'
  end.

(** [s.endsWith(p)] *)
Definition endsWith (s p : list N) : bool := startsWith (rev s) (rev p).

(** String equality, as [===] and SameValueZero decide it on strings. *)
Fixpoint eqb (s t : list N) : bool :=
  match s, t with
  | [], [] => true
  | a :: s', b :: t' => (a =? b) && eqb s' t'
  | _, _ => false
  end.

(** ToString of a value that is a string or [undefined]: what a template
    literal and a DOMString conversion apply. *)
Definition ToString (v : option (list N)) : list N :=
  match v with
  | Some s => s
  | None => js "undefined"
  end.

End JSString.
Import JSString.

(** ** Arrays *)

Module JSArray.

(** [a.slice(start, end)], with the relative (negative) indices and the
    clamping of Array.prototype.slice. *)
Definition slice {A} (a : list A) (start end_ : Z) : list A :=
  let len := Z.of_nat (length a) in
  let k := if (start <? 0)%Z then Z.max (len + start) 0 else Z.min start len in
  let final := if (end_ <? 0)%Z then Z.max (len + end_) 0 else Z.min end_ len in
  let count := Z.max (final - k) 0 in
  take (Z.to_nat count) (drop (Z.to_nat k) a).

(** [a.includes(v)] on an array of strings, for a [v] that is a string or
    [undefined]. *)
Definition includes (a : list (list N)) (v : option (list N)) : bool :=
  match v with
  | Some s => existsb (JSString.eqb s) a
  | None => false
  end.

(** [a.last()]: the host's extension of Array.prototype; [undefined] on
    the empty array. *)
Definition last_ {A} (a : list A) : option A := last a.

End JSArray.
Import JSArray.

(** ** Regular expressions

    A backtracking matcher in continuation-passing style for the fragment of
    the pattern language the source uses: the start assertion, literals,
    greedy [*] and [+] over a character class, greedy [?] over a group, and
    named capture groups.  The matcher carries the index of the current
    position and the named captures made so far. *)

Module RegExp.

Inductive regex : Type :=
| Bol
| Chr (c : N)
| Star (cls : N -> bool)
| Plus (cls : N -> bool)
| Opt (r : regex)
| Seq (r1 r2 : regex)
| Group (name : string) (r : regex).

(** The [groups] object of a match: an absent key is [undefined]. *)
Abbreviation groups := (gmap string (list N)).

Fixpoint star (cls : N -> bool) (s : list N) (i : nat)
    (k : nat -> list N -> option groups) : option groups :=
  match s with
  | c :: s' =>
      if cls c then
        match star cls s' (S i) k with
        | Some g => Some g
        | None => k i s
        end
      else k i s
  | [] => k i []
  end.

Fixpoint rmatch (r : regex) (i : nat) (s : list N) (caps : groups)
    (k : nat -> list N -> groups -> option groups) : option groups :=
  match r with
  | Bol => if Nat.eqb i 0 then k i s caps else None
  | Chr c =>
      match s with
      | c' :: s' => if c' =? c then k (S i) s' caps else None
      | [] => None
      end
  | Star cls => star cls s i (fun i' s' => k i' s' caps)
  | Plus cls =>
      match s with
      | c :: s' =>
          if cls c then star cls s' (S i) (fun i' s' => k i' s' caps)
          else None
      | [] => None
      end
  | Opt r' =>
      match rmatch r' i s caps k with
      | Some g => Some g
      | None => k i s caps
      end
  | Seq r1 r2 =>
      rmatch r1 i s caps (fun i' s' caps' => rmatch r2 i' s' caps' k)
  | Group name r' =>
      rmatch r' i s caps
        (fun i' s' caps' => k i' s' (<[name := take (i' - i) s]> caps'))
  end.

(** The first start position, from index [i] on, at which [r] matches. *)
Fixpoint exec_from (r : regex) (i : nat) (s : list N) : option groups :=
  match rmatch r i s ∅ (fun _ _ caps => Some caps) with
  | Some g => Some g
  | None =>
      match s with
      | _ :: s' => exec_from r (S i) s'
      | [] => None
      end
  end.

(** [s.match(r)] for a pattern without the global flag: the groups of the
    first match, or [null]. *)
Definition String_match (s : list N) (r : regex) : option groups :=
  exec_from r 0 s.

End RegExp.
Import RegExp.

Declare Scope regex_scope.
Delimit Scope regex_scope with regex.
Infix ">>" := Seq (at level 60, right associativity) : regex_scope.

(** ** The plugin *)

(** [[^\s^{]]: a negated class listing the whitespace escape, the caret and
    the opening brace. *)
Definition lang_class (c : N) : bool :=
  negb (is_ws c || (c =? 94) || (c =? 123)).

(** [[^}]] *)
Definition label_class (c : N) : bool := negb (c =? 125).

(** [/^```(?<lang>[^\s^{]+)?\s*(?:{(?<label>[^}]+)})?/] *)
Definition REGEX_FENCED_CODEBLOCK_START : regex :=
  (Bol >> Chr 96 >> Chr 96 >> Chr 96 >>
   Opt (Group "lang" (Plus lang_class)) >>
   Star is_ws >>
   Opt (Chr 123 >> Group "label" (Plus label_class) >> Chr 125))%regex.

Definition fence : list N := js "```".

(** *** The rendered output

    An element has a name, a class list, a [dataset] (its [data-*]
    attributes) and child nodes; a child is a text node or an element. *)

#[warnings="-register-all"] Inductive HTMLElement : Type := mkElement {
  localName : string;
  classList : list string;
  dataset : gmap string (list N);
  childNodes : list (list N + HTMLElement)
}.

Module DOM.

(** [document.createElement(tag)] *)
Definition createElement (tag : string) : HTMLElement :=
  mkElement tag [] ∅ [].

(** [e.addClass(cls)]: the class list is an ordered set. *)
Definition addClass (cls : string) (e : HTMLElement) : HTMLElement :=
  mkElement (localName e)
    (if bool_decide (cls ∈ classList e) then classList e
     else classList e ++ [cls])
    (dataset e) (childNodes e).

(** [e.setText(txt)]: the text content replaces all children. *)
Definition setText (txt : list N) (e : HTMLElement) : HTMLElement :=
  mkElement (localName e) (classList e) (dataset e)
    (match txt with [] => [] | _ :: _ => [inl txt] end).

(** [e.prepend(child)] *)
Definition prepend (child : HTMLElement) (e : HTMLElement) : HTMLElement :=
  mkElement (localName e) (classList e) (dataset e)
    (inr child :: childNodes e).

(** [e.dataset[key] = v]: the value is converted to a string. *)
Definition dataset_set (key : string) (v : option (list N))
    (e : HTMLElement) : HTMLElement :=
  mkElement (localName e) (classList e)
    (<[key := ToString v]> (dataset e)) (childNodes e).

(** [e.querySelector('pre > code')]: the first descendant of [e], in
    document order, that is a [code] element whose parent is a [pre]
    element (the parent may be [e] itself). *)
Fixpoint querySelector_pre_code (e : HTMLElement) : option HTMLElement :=
  (fix descend (cs : list (list N + HTMLElement)) : option HTMLElement :=
     match cs with
     | [] => None
     | inl _ :: cs' => descend cs'
     | inr d :: cs' =>
         if String.eqb (localName e) "pre" && String.eqb (localName d) "code"
         then Some d
         else match querySelector_pre_code d with
              | Some r => Some r
              | None => descend cs'
              end
     end) (childNodes e).

End DOM.
Import DOM.

(** *** Completions *)

Inductive JSError : Type :=
| TypeError (msg : string).

Inductive Completion (A : Type) : Type :=
| Normal (a : A)
| Throw (e : JSError).
Arguments Normal {A} a.
Arguments Throw {A} e.

Definition bind {A B} (c : Completion A) (f : A -> Completion B)
    : Completion B :=
  match c with
  | Normal a => f a
  | Throw e => Throw e
  end.

Notation "x <- c ;; k" := (bind c (fun x => k))
  (at level 100, c at next level, right associativity).

(** The receiver of a property access or method call: [undefined] throws. *)
Definition receiver {A} (v : option A) : Completion A :=
  match v with
  | Some a => Normal a
  | None => Throw (TypeError "Cannot read properties of undefined")
  end.

(** [v == null] for a value that is a string or [undefined]. *)
Definition eq_null (v : option (list N)) : bool :=
  match v with
  | None => true
  | Some _ => false
  end.

(** Truthiness of a string. *)
Definition truthy (s : list N) : bool :=
  match s with
  | [] => false
  | _ :: _ => true
  end.

(** *** Settings, section information, and the state the routine acts on *)

Record CBLSettings : Type := {
  ignoreLanguages : option (list N);
  showLanguageAsLabel : bool
}.

(** What [ctx.getSectionInfo(el)] answers when it is not [null]. *)
Record MarkdownSectionInformation : Type := {
  text : list N;
  lineStart : Z;
  lineEnd : Z
}.

Record MarkdownRenderChild : Type := {
  containerEl : HTMLElement
}.

(** The rendered output [el], the console, and the children registered with
    the render context. *)
Record World : Type := {
  el : HTMLElement;
  console : list (list N);
  ctx_children : list MarkdownRenderChild
}.

Definition console_log (msg : list N) (w : World) : World :=
  {| el := el w; console := console w ++ [msg];
     ctx_children := ctx_children w |}.

(** The four statements of the success path (lines 109-116). *)
Definition apply_label (labelText : list N) (language : option (list N))
    (w : World) : World :=
  let label := setText labelText (addClass "codeblock-label" (createElement "p")) in
  {| el := dataset_set "language" language
             (addClass "labeled-codeblock" (prepend label (el w)));
     console := console w;
     ctx_children := ctx_children w ++ [{| containerEl := label |}] |}.

(** The lines of the section, each trimmed (lines 67-70). *)
Definition section_lines (section : MarkdownSectionInformation)
    : list (list N) :=
  slice (List.map trim (split 10 (text section)))
    (lineStart section) (lineEnd section + 1).

(** The condition of the [if] of lines 72-76, with its short-circuit
    evaluation. *)
Definition not_fenced (lines : list (list N)) : Completion bool :=
  if (length lines <? 2)%nat then Normal true
  else
    first <- receiver (lines !! 0%nat) ;;
    if negb (startsWith first fence) then Normal true
    else
      final <- receiver (last_ lines) ;;
      Normal (negb (endsWith final fence)).

Definition markdownPostProcessor (settings : CBLSettings)
    (getSectionInfo : option MarkdownSectionInformation) (w : World)
    : Completion World :=
  let ignoreLanguages' :=
    match ignoreLanguages settings with
    | Some s => if truthy s then split 10 (trim s) else []
    | None => []
    end in
  match querySelector_pre_code (el w) with
  | None => Normal w
  | Some _ =>
  match getSectionInfo with
  | None => Normal w
  | Some section =>
  let lines := section_lines section in
  malformed <- not_fenced lines ;;
  if (malformed : bool) then Normal w
  else
  first <- receiver (lines !! 0%nat) ;;
  match String_match first REGEX_FENCED_CODEBLOCK_START with
  | None => Normal w
  | Some match_groups =>
  let language := match_groups !! "lang" in
  if includes ignoreLanguages' language
  then Normal (console_log (js "ignoring " ++ ToString language) w)
  else
  let labelText := match_groups !! "label" in
  let labelText :=
    if eq_null labelText && showLanguageAsLabel settings then language
    else labelText in
  match labelText with
  | None => Normal w
  | Some labelText => Normal (apply_label labelText language w)
  end
  end
  end
  end.

(** *** Settings at load time

    The persisted data is a JSON object or [null]; [loadSettings] merges it
    over the defaults with [Object.assign]. *)

#[warnings="-register-all"] Inductive JSValue : Type :=
| JNull
| JBool (b : bool)
| JNumber (n : Z)
| JString (s : list N)
| JArray (items : list JSValue)
| JObject (props : gmap string JSValue).

Definition newline : list N := [10].

Definition DEFAULT_SETTINGS : gmap string JSValue :=
  <["showLanguageAsLabel" := JBool true]>
    (<["ignoreLanguages" :=
         JString (js "dataview" ++ newline ++ js "dataviewjs" ++ newline
                  ++ js "tasks")]> ∅).

(** [Object.assign(target, ...sources)]: every own property of every source
    that is not [null] is assigned to the target, later sources last.  The
    assignment to the key [__proto__] goes to the prototype setter of the
    target and makes no own property; the maps hold own properties. *)
Definition Object_assign (target : gmap string JSValue)
    (sources : list (option (gmap string JSValue))) : gmap string JSValue :=
  foldl (fun acc src =>
           match src with
           | Some props => delete "__proto__" props ∪ acc
           | None => acc
           end) target sources.

(** [this.settings] after [loadSettings], for the answer of [loadData]. *)
Definition loadSettings (loadData : option (gmap string JSValue))
    : gmap string JSValue :=
  Object_assign ∅ [Some DEFAULT_SETTINGS; loadData].

(** The settings object read at its declared type [CBLSettings]. *)
Definition as_CBLSettings (o : gmap string JSValue) : option CBLSettings :=
  match o !! "showLanguageAsLabel", o !! "ignoreLanguages" with
  | Some (JBool b), None =>
      Some {| ignoreLanguages := None; showLanguageAsLabel := b |}
  | Some (JBool b), Some (JString s) =>
      Some {| ignoreLanguages := Some s; showLanguageAsLabel := b |}
  | _, _ => None
  end.

(** *** The settings as the routine finds them, and the plugin object *)

(** ToBoolean of a property value; an absent property is [undefined]. *)
Definition ToBoolean (v : option JSValue) : bool :=
  match v with
  | None => false
  | Some JNull => false
  | Some (JBool b) => b
  | Some (JNumber n) => negb (n =? 0)%Z
  | Some (JString s) => truthy s
  | Some (JArray _) => true
  | Some (JObject _) => true
  end.

(** What lines 49-53 and 99 read in [this.settings], whatever it holds: a
    truthy [ignoreLanguages] that is not a string has no [trim] method,
    and the call throws before any guard is tried; a falsy one stands for
    the empty list; [showLanguageAsLabel] is used for its truthiness. *)
Definition settings_read (o : gmap string JSValue) : Completion CBLSettings :=
  let show := ToBoolean (o !! "showLanguageAsLabel") in
  match o !! "ignoreLanguages" with
  | Some (JString s) =>
      Normal {| ignoreLanguages := Some s; showLanguageAsLabel := show |}
  | v =>
      if ToBoolean v
      then Throw (TypeError "this.settings.ignoreLanguages.trim is not a function")
      else Normal {| ignoreLanguages := None; showLanguageAsLabel := show |}
  end.

(** The routine as a method of the plugin, on the settings object it
    holds. *)
Definition markdownPostProcessor_method (this_settings : gmap string JSValue)
    (getSectionInfo : option MarkdownSectionInformation) (w : World)
    : Completion World :=
  settings <- settings_read this_settings ;;
  markdownPostProcessor settings getSectionInfo w.

(** The plugin: the settings object it holds and the data the host keeps
    for it ([null] before the first save). *)
Record CBLPlugin : Type := {
  this_settings : gmap string JSValue;
  stored_data : option (gmap string JSValue)
}.

(** [this.saveData(d)]: the host keeps [d]. *)
Definition saveData (d : gmap string JSValue) (p : CBLPlugin) : CBLPlugin :=
  {| this_settings := this_settings p; stored_data := Some d |}.

(** [saveSettings] (lines 44-46) *)
Definition saveSettings (p : CBLPlugin) : CBLPlugin :=
  saveData (this_settings p) p.

(** [onload] (lines 27-36): the settings are loaded from what the host
    keeps; the registrations that follow leave the plugin as it is. *)
Definition onload (stored : option (gmap string JSValue)) : CBLPlugin :=
  {| this_settings := loadSettings stored; stored_data := stored |}.

(** The two controls of the settings tab (lines 134-158). *)
Inductive FormEvent : Type :=
| ToggleShowLanguage (value : bool)
| EditIgnore (val : list N).

(** The [onChange] callbacks: the field is assigned, then the settings are
    saved. *)
Definition onChange (ev : FormEvent) (p : CBLPlugin) : CBLPlugin :=
  match ev with
  | ToggleShowLanguage value =>
      saveSettings
        {| this_settings :=
             <["showLanguageAsLabel" := JBool value]> (this_settings p);
           stored_data := stored_data p |}
  | EditIgnore val =>
      saveSettings
        {| this_settings :=
             <["ignoreLanguages" := JString val]> (this_settings p);
           stored_data := stored_data p |}
  end.

(** A session: the plugin is loaded on what the host keeps, then the form
    is edited. *)
Definition session (stored : option (gmap string JSValue))
    (events : list FormEvent) : CBLPlugin :=
  foldl (fun p ev => onChange ev p) (onload stored) events.

(** ** Specification-side definitions *)

(** Both fields of the settings are there. *)
Definition has_both_fields (o : gmap string JSValue) : Prop :=
  is_Some (o !! "ignoreLanguages") /\ is_Some (o !! "showLanguageAsLabel").

(** The maximal prefix of [s] whose characters all satisfy [p], and what
    follows it. *)
Fixpoint run (p : N -> bool) (s : list N) : list N :=
  match s with
  | c :: s' => if p c then c :: run p s' else []
  | [] => []
  end.

Fixpoint after (p : N -> bool) (s : list N) : list N :=
  match s with
  | c :: s' => if p c then after p s' else s
  | [] => []
  end.

(** A string, or [undefined] when it is empty. *)
Definition nonempty (s : list N) : option (list N) :=
  match s with
  | [] => None
  | _ :: _ => Some s
  end.

(** The language token the pattern captures on a header: the maximal run of
    class characters right after the three backticks. *)
Definition header_lang (line : list N) : option (list N) :=
  nonempty (run lang_class (drop 3 line)).

(** A brace-delimited label at the head of [s]: an opening brace, a
    non-empty run of characters other than the closing brace, and a closing
    brace. *)
Definition brace_label (s : list N) : option (list N) :=
  match s with
  | c :: body =>
      if c =? 123 then
        match nonempty (run label_class body), after label_class body with
        | Some lab, c' :: _ => if c' =? 125 then Some lab else None
        | _, _ => None
        end
      else None
  | [] => None
  end.

(** The label the pattern captures on a header: a brace-delimited label
    after the language run and the whitespace run. *)
Definition header_label (line : list N) : option (list N) :=
  brace_label (after is_ws (after lang_class (drop 3 line))).

Definition with_group (name : string) (v : option (list N)) (g : groups)
    : groups :=
  match v with
  | Some s => <[name := s]> g
  | None => g
  end.

Definition header_groups (line : list N) : groups :=
  with_group "label" (header_label line)
    (with_group "lang" (header_lang line) ∅).

(** The run as the claim words it: the maximal run of characters that are
    neither whitespace nor an opening brace. *)
Definition spec_lang_class (c : N) : bool :=
  negb (is_ws c || (c =? 123)).

Definition spec_header_lang (line : list N) : option (list N) :=
  nonempty (run spec_lang_class (drop 3 line)).

(** The element a label is shown by: a [p] of class [codeblock-label] whose
    only child is the text. *)
Definition label_element (labelText : list N) : HTMLElement :=
  mkElement "p" ["codeblock-label"] ∅ [inl labelText].

(** [w'] is [w] with a label shown: the label element is the first child of
    the output, before the children it had; the output has the marker
    class, added after its classes unless it was among them; its
    [language] data attribute holds the language as a string; the label
    element is registered with the render context; the console is as it
    was. *)
Definition labelled (labelText : list N) (language : option (list N))
    (w w' : World) : Prop :=
  localName (el w') = localName (el w) /\
  childNodes (el w') = inr (label_element labelText) :: childNodes (el w) /\
  classList (el w')
    = classList (el w)
      ++ (if bool_decide ("labeled-codeblock" ∈ classList (el w)) then []
          else ["labeled-codeblock"]) /\
  dataset (el w') = <["language" := ToString language]> (dataset (el w)) /\
  console w' = console w /\
  ctx_children w'
    = ctx_children w ++ [{| containerEl := label_element labelText |}].

(** The decision of one run: nothing, an ignored language (logged), or a
    label with the language it records. *)
Inductive Decision : Type :=
| Skip
| Ignored (language : option (list N))
| Labelled (labelText : list N) (language : option (list N)).

Definition apply_decision (d : Decision) (w : World) : World :=
  match d with
  | Skip => w
  | Ignored language =>
      console_log (js "ignoring " ++ ToString language) w
  | Labelled labelText language => apply_label labelText language w
  end.

(** The list the ignore setting denotes. *)
Definition ignore_list (settings : CBLSettings) : list (list N) :=
  match ignoreLanguages settings with
  | Some s => if truthy s then split 10 (trim s) else []
  | None => []
  end.

(** The decision read off the trimmed lines of the span and the settings,
    with the greedy runs in place of the pattern. *)
Definition decision (settings : CBLSettings) (lines : list (list N))
    : Decision :=
  if (length lines <? 2)%nat then Skip
  else
    match lines !! 0%nat, last lines with
    | Some first, Some final =>
        if startsWith first fence && endsWith final fence then
          let language := header_lang first in
          if includes (ignore_list settings) language then Ignored language
          else
            match header_label first with
            | Some lab => Labelled lab language
            | None =>
                if showLanguageAsLabel settings then
                  match language with
                  | Some l => Labelled l language
                  | None => Skip
                  end
                else Skip
            end
        else Skip
    | _, _ => Skip
    end.

(** The lines of the span, as they are in the document. *)
Definition span_text (section : MarkdownSectionInformation)
    : list (list N) :=
  slice (split 10 (text section)) (lineStart section) (lineEnd section + 1).

(** The parts of the pattern after the backticks, and the continuation
    that ends a match. *)
Definition final_k : nat -> list N -> groups -> option groups :=
  fun _ _ caps => Some caps.

Definition label_part : regex :=
  Opt (Chr 123 >> Group "label" (Plus label_class) >> Chr 125)%regex.

Definition lang_part : regex := Opt (Group "lang" (Plus lang_class)).

(** The guards of the routine (lines 56-84): one constructor per way of
    failing one. *)
Inductive GuardFails (getSectionInfo : option MarkdownSectionInformation)
    (w : World) : Prop :=
| no_codeblock :
    querySelector_pre_code (el w) = None -> GuardFails getSectionInfo w
| no_section :
    getSectionInfo = None -> GuardFails getSectionInfo w
| too_short (section : MarkdownSectionInformation) :
    getSectionInfo = Some section ->
    (length (section_lines section) < 2)%nat ->
    GuardFails getSectionInfo w
| no_opening_fence (section : MarkdownSectionInformation) (first : list N) :
    getSectionInfo = Some section ->
    section_lines section !! 0%nat = Some first ->
    startsWith first fence = false ->
    GuardFails getSectionInfo w
| no_closing_fence (section : MarkdownSectionInformation) (final : list N) :
    getSectionInfo = Some section ->
    last (section_lines section) = Some final ->
    endsWith final fence = false ->
    GuardFails getSectionInfo w
| no_match (section : MarkdownSectionInformation) (first : list N) :
    getSectionInfo = Some section ->
    section_lines section !! 0%nat = Some first ->
    String_match first REGEX_FENCED_CODEBLOCK_START = None ->
    GuardFails getSectionInfo w.

(** *** Sample inputs *)

(** Lines joined by line feeds. *)
Fixpoint unlines (ls : list (list N)) : list N :=
  match ls with
  | [] => []
  | [l] => l
  | l :: ls' => l ++ newline ++ unlines ls'
  end.

(** A document that is one block, and the section information for it. *)
Definition block_section (ls : list string) : MarkdownSectionInformation :=
  {| text := unlines (List.map js ls);
     lineStart := 0;
     lineEnd := Z.of_nat (length ls) - 1 |}.

(** The same block below a heading and a blank line. *)
Definition block_section_below (ls : list string)
    : MarkdownSectionInformation :=
  {| text := unlines (List.map js ("# Notes" :: "" :: ls));
     lineStart := 2;
     lineEnd := Z.of_nat (length ls) + 1 |}.

Definition section_python_label : MarkdownSectionInformation :=
  block_section ["```python {My Script}"; "print(1)"; "```"].

Definition section_python_below : MarkdownSectionInformation :=
  block_section_below ["```python {My Script}"; "print(1)"; "```"].

Definition section_dataview_label : MarkdownSectionInformation :=
  block_section ["```dataview {My Query}"; "LIST"; "```"].

Definition section_label_only : MarkdownSectionInformation :=
  block_section ["```{My Label}"; "text"; "```"].

Definition section_python : MarkdownSectionInformation :=
  block_section ["```python"; "print(1)"; "```"].

Definition section_dataview : MarkdownSectionInformation :=
  block_section ["```dataview"; "LIST"; "```"].

Definition section_bare : MarkdownSectionInformation :=
  block_section ["```"; "text"; "```"].

Definition section_empty_braces : MarkdownSectionInformation :=
  block_section ["```js {}"; "f()"; "```"].

(** A section that holds the header line only. *)
Definition section_header_only : MarkdownSectionInformation :=
  {| text := unlines (List.map js ["```python"; "print(1)"; "```"]);
     lineStart := 0;
     lineEnd := 0 |}.

(** The python block indented in a list, with another body. *)
Definition section_python_indented : MarkdownSectionInformation :=
  block_section ["   ```python  "; "   x = 2"; "   y = 3"; "   ```"].

Definition section_unclosed : MarkdownSectionInformation :=
  block_section ["```python"; "print(1)"].

(** What the host renders for a fenced block: a [div] holding a [pre]
    holding a [code]. *)
Definition rendered_block : HTMLElement :=
  mkElement "div" [] ∅
    [inr (mkElement "pre" [] ∅
            [inr (mkElement "code" [] ∅ [inl (js "print(1)")])])].

(** What the host renders for a paragraph. *)
Definition rendered_paragraph : HTMLElement :=
  mkElement "div" [] ∅ [inr (mkElement "p" [] ∅ [inl (js "hello")])].

Definition fresh (e : HTMLElement) : World :=
  {| el := e; console := []; ctx_children := [] |}.

Definition default_settings : CBLSettings :=
  {| ignoreLanguages :=
       Some (js "dataview" ++ newline ++ js "dataviewjs" ++ newline
             ++ js "tasks");
     showLanguageAsLabel := true |}.

(** ** Runs and the greedy quantifiers *)

Section Runs.

Variable p : N -> bool.

Lemma run_after (s : list N) : run p s ++ after p s = s.
Proof.
  induction s as [|c s IH]; simpl; [reflexivity|].
  destruct (p c); simpl; [now rewrite IH | reflexivity].
Qed.

Lemma take_run (s : list N) : take (length (run p s)) s = run p s.
Proof.
  induction s as [|c s IH]; simpl; [reflexivity|].
  destruct (p c); simpl; [now rewrite IH | reflexivity].
Qed.

Lemma run_all (s : list N) : forallb p (run p s) = true.
Proof.
  induction s as [|c s IH]; simpl; [reflexivity|].
  destruct (p c) eqn:E; simpl; [now rewrite E | reflexivity].
Qed.

Lemma after_head (s : list N) (c : N) (t : list N) :
  after p s = c :: t -> p c = false.
Proof.
  induction s as [|a s IH]; simpl; [discriminate|].
  destruct (p a) eqn:E; [exact IH | intros [= <- _]; exact E].
Qed.

Lemma run_app (a b : list N) :
  forallb p a = true -> run p (a ++ b) = a ++ run p b.
Proof.
  induction a as [|c a IH]; simpl; [reflexivity|].
  intros [-> Ha]%andb_prop. now rewrite IH.
Qed.

Lemma after_app (a b : list N) :
  forallb p a = true -> after p (a ++ b) = after p b.
Proof.
  induction a as [|c a IH]; simpl; [reflexivity|].
  intros [-> Ha]%andb_prop. now apply IH.
Qed.

(** The run is a prefix, all of its characters are in the class, and the
    character after it, if any, is not. *)
Lemma run_maximal (s : list N) :
  s = run p s ++ after p s /\
  forallb p (run p s) = true /\
  match after p s with c :: _ => p c = false | [] => True end.
Proof.
  split; [symmetry; apply run_after|]. split; [apply run_all|].
  destruct (after p s) as [|c t] eqn:E; [exact I|].
  now apply after_head in E.
Qed.

(** A greedy star whose continuation cannot fail stops after the maximal
    run. *)
Lemma star_total (k : nat -> list N -> option groups) :
  (forall i s, is_Some (k i s)) ->
  forall s i, star p s i k = k (i + length (run p s))%nat (after p s).
Proof.
  intros Hk. induction s as [|c s IH]; intros i; simpl.
  - now rewrite Nat.add_0_r.
  - destruct (p c); simpl.
    + rewrite IH. destruct (Hk (S i + length (run p s))%nat (after p s)) as [g Hg].
      rewrite Hg. rewrite <- Hg. f_equal. lia.
    + now rewrite Nat.add_0_r.
Qed.

(** A greedy star followed by a literal outside the class: no shorter
    run can be followed by the literal, so giving characters back never
    helps. *)
Lemma star_then_chr (stop : N) (k : nat -> list N -> option groups) :
  p stop = false ->
  let k' := fun i s =>
    match s with
    | c :: s' => if c =? stop then k i s' else None
    | [] => None
    end in
  forall s i, star p s i k' = k' (i + length (run p s))%nat (after p s).
Proof.
  intros Hstop k'. induction s as [|c s IH]; intros i; simpl.
  - reflexivity.
  - destruct (p c) eqn:E; simpl.
    + rewrite IH. replace (S i + length (run p s))%nat
        with (i + S (length (run p s)))%nat by lia.
      destruct (k' _ _); [reflexivity|].
      destruct (N.eqb_spec c stop) as [->|_]; [congruence | reflexivity].
    + now rewrite Nat.add_0_r.
Qed.

End Runs.

(** ** Strings and arrays *)

Lemma jsstring_eqb_eq (s t : list N) : JSString.eqb s t = true <-> s = t.
Proof.
  revert t. induction s as [|a s IH]; intros [|b t]; simpl;
    try (split; [discriminate | congruence]); [tauto|].
  rewrite andb_true_iff, N.eqb_eq, IH. split; [intros [-> ->] | intros [= -> ->]]; auto.
Qed.

Lemma includes_In (a : list (list N)) (s : list N) :
  includes a (Some s) = true <-> In s a.
Proof.
  unfold includes. rewrite existsb_exists. split.
  - intros (x & Hx & E). apply jsstring_eqb_eq in E. now subst.
  - intros H. exists s. split; [exact H | now apply jsstring_eqb_eq].
Qed.

Lemma startsWith_app (s p : list N) :
  startsWith s p = true <-> exists r, s = p ++ r.
Proof.
  revert s. induction p as [|a p IH]; intros s; simpl.
  - split; [now exists s | now destruct s].
  - destruct s as [|c s]; simpl; [split; [discriminate | intros [r [=]]]|].
    rewrite andb_true_iff, N.eqb_eq, IH. split.
    + intros [-> [r ->]]. now exists r.
    + intros [r [= -> ->]]. split; [reflexivity | now exists r].
Qed.

Lemma slice_map {A B} (f : A -> B) (a : list A) (i j : Z) :
  slice (List.map f a) i j = List.map f (slice a i j).
Proof.
  unfold slice. rewrite length_map.
  change (@List.map A B f) with (@fmap list _ A B f).
  now rewrite fmap_take, fmap_drop.
Qed.

Lemma section_lines_span (section : MarkdownSectionInformation) :
  section_lines section = List.map trim (span_text section).
Proof. apply slice_map. Qed.

(** ** The header pattern *)

Lemma rmatch_label_part (i : nat) (s : list N) (caps : groups) :
  rmatch label_part i s caps final_k
  = Some (with_group "label" (brace_label s) caps).
Proof.
  unfold label_part, brace_label. simpl.
  destruct s as [|c body]; [reflexivity|].
  destruct (c =? 123); [|reflexivity].
  destruct body as [|c2 s2]; [reflexivity|]. simpl.
  destruct (label_class c2) eqn:E2; simpl; [|reflexivity].
  etransitivity.
  { apply f_equal2 with (f := fun a b => match a with Some g => Some g | None => b end);
      [|reflexivity].
    apply (star_then_chr label_class 125
             (fun i' _ => Some (<["label" := take (i' - S i) (c2 :: s2)]> caps))).
    reflexivity. }
  simpl. destruct (after label_class s2) as [|c' rest] eqn:Ea; [reflexivity|].
  destruct (c' =? 125); [|reflexivity]. simpl.
  replace (S (i + length (run label_class s2)) - i)%nat
    with (S (length (run label_class s2))) by lia.
  simpl. now rewrite take_run.
Qed.

Lemma rmatch_label_total (i : nat) (s : list N) (caps : groups) :
  is_Some (rmatch label_part i s caps final_k).
Proof. rewrite rmatch_label_part. eauto. Qed.

Lemma rmatch_ws_label (i : nat) (s : list N) (caps : groups) :
  rmatch (Star is_ws >> label_part)%regex i s caps final_k
  = Some (with_group "label" (brace_label (after is_ws s)) caps).
Proof.
  simpl. rewrite star_total by (intros; apply rmatch_label_total).
  apply rmatch_label_part.
Qed.

Lemma rmatch_Plus_cons (cls : N -> bool) (i : nat) (c : N) (s : list N)
    (caps : groups) (k : nat -> list N -> groups -> option groups) :
  rmatch (Plus cls) i (c :: s) caps k
  = if cls c then star cls s (S i) (fun i' s' => k i' s' caps) else None.
Proof. reflexivity. Qed.

Lemma rmatch_lang_ws_label (i : nat) (s : list N) :
  rmatch (lang_part >> Star is_ws >> label_part)%regex i s ∅ final_k
  = Some (with_group "label"
            (brace_label (after is_ws (after lang_class s)))
            (with_group "lang" (nonempty (run lang_class s)) ∅)).
Proof.
  unfold lang_part.
  change (rmatch (Opt (Group "lang" (Plus lang_class)) >> Star is_ws >> label_part)%regex
            i s ∅ final_k)
    with (match rmatch (Plus lang_class) i s ∅
                  (fun i' s' caps' =>
                     rmatch (Star is_ws >> label_part)%regex i' s'
                       (<["lang" := take (i' - i) s]> caps') final_k) with
          | Some g => Some g
          | None => rmatch (Star is_ws >> label_part)%regex i s ∅ final_k
          end).
  destruct s as [|c s']; [apply rmatch_ws_label|].
  rewrite rmatch_Plus_cons. cbn [run after].
  destruct (lang_class c) eqn:E; [|apply rmatch_ws_label].
  rewrite star_total.
  - rewrite rmatch_ws_label.
    replace (S i + length (run lang_class s') - i)%nat
      with (S (length (run lang_class s'))) by lia.
    cbn [take nonempty with_group]. now rewrite take_run.
  - intros i' s0. rewrite rmatch_ws_label. eauto.
Qed.

Lemma exec_from_later (s : list N) (i : nat) :
  exec_from REGEX_FENCED_CODEBLOCK_START (S i) s = None.
Proof.
  revert i. induction s as [|c s IH]; intros i; simpl; [reflexivity|apply IH].
Qed.

Lemma fence_eq : fence = [96; 96; 96].
Proof. reflexivity. Qed.

(** The pattern matches exactly the lines that start with three backticks,
    and its groups are the greedy runs. *)
Lemma String_match_header (line : list N) :
  String_match line REGEX_FENCED_CODEBLOCK_START
  = if startsWith line fence then Some (header_groups line) else None.
Proof.
  unfold String_match, header_groups, header_label, header_lang.
  rewrite fence_eq.
  destruct line as [|c1 [|c2 [|c3 r]]]; [reflexivity| | |].
  - simpl. now destruct (c1 =? 96).
  - simpl. destruct (c1 =? 96); [|reflexivity]. now destruct (c2 =? 96).
  - unfold exec_from; fold exec_from. rewrite exec_from_later.
    change (rmatch REGEX_FENCED_CODEBLOCK_START 0 (c1 :: c2 :: c3 :: r) ∅
              (fun _ _ caps => Some caps))
      with (if c1 =? 96 then if c2 =? 96 then if c3 =? 96 then
              rmatch (lang_part >> Star is_ws >> label_part)%regex 3 r ∅ final_k
            else None else None else None).
    cbn [startsWith drop].
    destruct (c1 =? 96); [|reflexivity].
    destruct (c2 =? 96); [|reflexivity].
    destruct (c3 =? 96); [|reflexivity].
    cbn [andb]. rewrite rmatch_lang_ws_label, drop_0. now destruct r.
Qed.

Lemma header_groups_lang (line : list N) :
  header_groups line !! "lang" = header_lang line.
Proof.
  unfold header_groups.
  destruct (header_label line), (header_lang line); simpl;
    rewrite ?lookup_insert_ne by discriminate;
    rewrite ?lookup_insert_eq, ?lookup_empty; reflexivity.
Qed.

Lemma header_groups_label (line : list N) :
  header_groups line !! "label" = header_label line.
Proof.
  unfold header_groups.
  destruct (header_label line), (header_lang line); simpl;
    rewrite ?lookup_insert_eq; try reflexivity;
    rewrite ?lookup_insert_ne by discriminate; apply lookup_empty.
Qed.

(** ** The post-processor *)

(** The fence test never reads past the array. *)
Lemma not_fenced_eval (lines : list (list N)) :
  not_fenced lines
  = Normal
      (if (length lines <? 2)%nat then true
       else match lines !! 0%nat, last lines with
            | Some first, Some final =>
                negb (startsWith first fence && endsWith final fence)
            | _, _ => true
            end).
Proof.
  unfold not_fenced, last_.
  destruct (Nat.ltb_spec (length lines) 2) as [Hlt|Hge]; [reflexivity|].
  destruct lines as [|first rest]; [simpl in Hge; lia|]. cbn [lookup list_lookup receiver bind].
  destruct (last (first :: rest)) as [final|] eqn:El;
    [|apply last_None in El; discriminate].
  now destruct (startsWith first fence).
Qed.

(** The routine is the fence test, the pattern and the label choice: it
    returns normally, having applied the decision of the span. *)
Lemma markdownPostProcessor_decision (settings : CBLSettings)
    (getSectionInfo : option MarkdownSectionInformation) (w : World) :
  markdownPostProcessor settings getSectionInfo w
  = Normal
      match querySelector_pre_code (el w), getSectionInfo with
      | Some _, Some section =>
          apply_decision (decision settings (section_lines section)) w
      | _, _ => w
      end.
Proof.
  unfold markdownPostProcessor.
  destruct (querySelector_pre_code (el w)); [|reflexivity].
  destruct getSectionInfo as [section|]; [|reflexivity].
  rewrite not_fenced_eval. unfold decision. cbn [bind].
  fold (ignore_list settings).
  destruct (length (section_lines section) <? 2)%nat; [reflexivity|].
  destruct (section_lines section !! 0%nat) as [first|]; [|reflexivity].
  destruct (last (section_lines section)) as [final|]; [|reflexivity].
  destruct (startsWith first fence) eqn:Hs; [|reflexivity].
  destruct (endsWith final fence); [|reflexivity].
  cbn [andb negb receiver bind].
  rewrite String_match_header, Hs, header_groups_lang, header_groups_label.
  destruct (includes (ignore_list settings) (header_lang first)); [reflexivity|].
  destruct (header_label first) as [lab|]; cbn [eq_null andb]; [reflexivity|].
  destruct (showLanguageAsLabel settings); [|reflexivity].
  destruct (header_lang first); reflexivity.
Qed.

Lemma header_lang_nonempty (line l : list N) :
  header_lang line = Some l -> l <> [].
Proof.
  unfold header_lang, nonempty.
  destruct (run lang_class (drop 3 line)); [discriminate|].
  now intros [= <-].
Qed.

Lemma ws_not_lang (c : N) : is_ws c = true -> lang_class c = false.
Proof. unfold lang_class. now intros ->. Qed.

Lemma run_stop (p : N -> bool) (s : list N) :
  match s with c :: _ => p c = false | [] => True end ->
  run p s = [] /\ after p s = s.
Proof. destruct s as [|c s]; simpl; [tauto|]. now intros ->. Qed.

Lemma run_ext (p q : N -> bool) (s : list N) :
  (forall c, In c s -> p c = q c) -> run p s = run q s.
Proof.
  induction s as [|c s IH]; intros H; simpl; [reflexivity|].
  rewrite <- (H c) by now left.
  destruct (p c); [|reflexivity].
  f_equal. apply IH. intros c' Hc'. apply H. now right.
Qed.

(** The language group of a match is the maximal run of class characters
    after the backticks. *)
Lemma captured_language (line : list N) (g : groups) :
  String_match line REGEX_FENCED_CODEBLOCK_START = Some g ->
  g !! "lang" = header_lang line.
Proof.
  rewrite String_match_header.
  destruct (startsWith line fence); [|discriminate].
  intros [= <-]. apply header_groups_lang.
Qed.

(** On a header without a caret the class of the pattern and the class of
    the specification cut the same run. *)
Lemma header_lang_without_caret (line : list N) :
  ~ In 94 (drop 3 line) -> header_lang line = spec_header_lang line.
Proof.
  intros H. unfold header_lang, spec_header_lang. f_equal.
  apply run_ext. intros c Hc. unfold lang_class, spec_lang_class.
  destruct (N.eqb_spec c 94) as [->|_]; [contradiction|].
  now rewrite orb_false_r.
Qed.

Lemma nonempty_Some (s t : list N) : nonempty s = Some t -> s = t /\ t <> [].
Proof. destruct s; [discriminate|]. intros [= <-]. now split. Qed.

Lemma brace_label_Some (s t : list N) :
  brace_label s = Some t -> t <> [] /\ forallb label_class t = true.
Proof.
  unfold brace_label. destruct s as [|c body]; [discriminate|].
  destruct (c =? 123); [|discriminate].
  pose proof (run_all label_class body) as Hall.
  destruct (nonempty (run label_class body)) as [lab|] eqn:Hn; [|discriminate].
  apply nonempty_Some in Hn as [Hn Hne]. rewrite Hn in Hall.
  destruct (after label_class body) as [|c' rest]; [discriminate|].
  destruct (c' =? 125); [|discriminate]. now intros [= <-].
Qed.

Lemma header_label_nonempty (line t : list N) :
  header_label line = Some t -> t <> [].
Proof. unfold header_label. now intros [H _]%brace_label_Some. Qed.

(** The groups of a match are those of the greedy reading of the line. *)
Lemma String_match_groups (line : list N) (g : groups) :
  String_match line REGEX_FENCED_CODEBLOCK_START = Some g ->
  g !! "lang" = header_lang line /\ g !! "label" = header_label line.
Proof.
  rewrite String_match_header.
  destruct (startsWith line fence); [|discriminate].
  intros [= <-]. split; [apply header_groups_lang | apply header_groups_label].
Qed.

(** The success path shows a label that is not empty. *)
Lemma apply_label_labelled (labelText : list N) (language : option (list N))
    (w : World) :
  labelText <> [] -> labelled labelText language w (apply_label labelText language w).
Proof.
  intros Hne. destruct labelText as [|c t]; [congruence|].
  unfold labelled. simpl. repeat split.
  destruct (bool_decide ("labeled-codeblock" ∈ classList (el w)));
    [now rewrite app_nil_r | reflexivity].
Qed.

(** A field of the loaded settings is the stored one, or else the
    default. *)
Lemma loadSettings_lookup (stored : option (gmap string JSValue)) (k : string) :
  k <> "__proto__" ->
  loadSettings stored !! k
  = match default ∅ stored !! k with
    | Some v => Some v
    | None => DEFAULT_SETTINGS !! k
    end.
Proof.
  intros Hk. unfold loadSettings, Object_assign. simpl.
  rewrite (right_id_L ∅ (∪)).
  destruct stored as [o|]; simpl.
  - rewrite lookup_union, !lookup_delete_ne by congruence.
    destruct (o !! k), (DEFAULT_SETTINGS !! k); reflexivity.
  - rewrite lookup_delete_ne by congruence. now rewrite lookup_empty.
Qed.

(** ** The scenarios of the specification *)

Example scenario_language_as_label :
  markdownPostProcessor default_settings (Some section_python)
    (fresh rendered_block)
  = Normal (apply_label (js "python") (Some (js "python"))
              (fresh rendered_block)).
Proof. vm_compute. reflexivity. Qed.

Example scenario_explicit_label :
  markdownPostProcessor default_settings (Some section_python_label)
    (fresh rendered_block)
  = Normal (apply_label (js "My Script") (Some (js "python"))
              (fresh rendered_block)).
Proof. vm_compute. reflexivity. Qed.

Example scenario_ignored :
  markdownPostProcessor default_settings (Some section_dataview)
    (fresh rendered_block)
  = Normal (console_log (js "ignoring dataview") (fresh rendered_block)).
Proof. vm_compute. reflexivity. Qed.

Example scenario_bare_fence :
  markdownPostProcessor default_settings (Some section_bare)
    (fresh rendered_block)
  = Normal (fresh rendered_block).
Proof. vm_compute. reflexivity. Qed.

Example scenario_empty_braces :
  markdownPostProcessor default_settings (Some section_empty_braces)
    (fresh rendered_block)
  = Normal (apply_label (js "js") (Some (js "js")) (fresh rendered_block)).
Proof. vm_compute. reflexivity. Qed.

Example scenario_paragraph :
  markdownPostProcessor default_settings (Some section_python)
    (fresh rendered_paragraph)
  = Normal (fresh rendered_paragraph).
Proof. vm_compute. reflexivity. Qed.

Example scenario_labelled_output :
  el (apply_label (js "python") (Some (js "python")) (fresh rendered_block))
  = mkElement "div" ["labeled-codeblock"] {["language" := js "python"]}
      (inr (mkElement "p" ["codeblock-label"] ∅ [inl (js "python")])
         :: childNodes rendered_block).
Proof. vm_compute. reflexivity. Qed.

(** The settings of a first start, read at their declared type. *)
Example first_start_settings :
  as_CBLSettings (loadSettings None) = Some default_settings.
Proof. vm_compute. reflexivity. Qed.

(** A stored [__proto__] key becomes no field of the settings. *)
Example stored_proto_key :
  loadSettings (Some {["__proto__" := JObject {["ignoreLanguages" := JNumber 5]}]})
  = DEFAULT_SETTINGS.
Proof. vm_compute. reflexivity. Qed.

(** ** The claims *)

(** C1: on a span that passes every guard and whose language is not
    ignored, the routine returns normally and the label shown is the
    captured label when there is one: a [p] of class [codeblock-label]
    holding that text is the first child of the output.  Otherwise the
    label shown is the captured language when [showLanguageAsLabel] is set
    and a language was captured; otherwise the state is as it was. *)
Theorem label_choice (settings : CBLSettings)
    (section : MarkdownSectionInformation) (w : World)
    (first : list N) (g : groups) :
  is_Some (querySelector_pre_code (el w)) ->
  not_fenced (section_lines section) = Normal false ->
  section_lines section !! 0%nat = Some first ->
  String_match first REGEX_FENCED_CODEBLOCK_START = Some g ->
  includes (ignore_list settings) (g !! "lang") = false ->
  exists w',
    markdownPostProcessor settings (Some section) w = Normal w' /\
    match g !! "label" with
    | Some label => labelled label (g !! "lang") w w'
    | None =>
        if showLanguageAsLabel settings then
          match g !! "lang" with
          | Some language => labelled language (Some language) w w'
          | None => w' = w
          end
        else w' = w
    end.
Proof.
  intros [code Hq] Hfence Hfirst Hmatch Hignore.
  destruct (String_match_groups first g Hmatch) as [Hlang Hlabel].
  unfold markdownPostProcessor. fold (ignore_list settings).
  rewrite Hq, Hfence. cbn [bind]. rewrite Hfirst. cbn [receiver bind].
  rewrite Hmatch, Hignore.
  destruct (g !! "label") as [label|]; cbn [eq_null andb].
  - eexists; split; [reflexivity|]. apply apply_label_labelled.
    symmetry in Hlabel. now apply header_label_nonempty in Hlabel.
  - destruct (showLanguageAsLabel settings); [|now exists w].
    destruct (g !! "lang") as [language|]; [|now exists w].
    eexists; split; [reflexivity|]. apply apply_label_labelled.
    symmetry in Hlang. now apply header_lang_nonempty in Hlang.
Qed.

Lemma label_choice_witness :
  exists w',
    markdownPostProcessor default_settings (Some section_python_label)
      (fresh rendered_block) = Normal w' /\
    labelled (js "My Script") (Some (js "python")) (fresh rendered_block) w'.
Proof.
  refine (label_choice default_settings section_python_label
            (fresh rendered_block) (js "```python {My Script}")
            (<["label" := js "My Script"]> (<["lang" := js "python"]> ∅))
            _ _ _ _ _).
  - vm_compute. eauto.
  - vm_compute. reflexivity.
  - vm_compute. reflexivity.
  - vm_compute. reflexivity.
  - vm_compute. reflexivity.
Defined.

(** C2: when the captured language is one of the strings of the trimmed,
    newline-split ignore setting, the routine leaves the rendered output as
    it was and registers nothing, whatever [showLanguageAsLabel] is and
    whether or not the header carries a label. *)
Theorem ignored_language_unlabelled (settings : CBLSettings)
    (section : MarkdownSectionInformation) (w : World)
    (setting first language : list N) (g : groups) :
  ignoreLanguages settings = Some setting ->
  In language (split 10 (trim setting)) ->
  section_lines section !! 0%nat = Some first ->
  String_match first REGEX_FENCED_CODEBLOCK_START = Some g ->
  g !! "lang" = Some language ->
  exists w',
    markdownPostProcessor settings (Some section) w = Normal w' /\
    el w' = el w /\ ctx_children w' = ctx_children w.
Proof.
  intros Hset Hin Hfirst Hmatch Hlang.
  rewrite markdownPostProcessor_decision. eexists; split; [reflexivity|].
  destruct (querySelector_pre_code (el w)); [|split; reflexivity].
  unfold decision. rewrite Hfirst.
  destruct (length (section_lines section) <? 2)%nat; [split; reflexivity|].
  destruct (last (section_lines section)) as [final|]; [|split; reflexivity].
  destruct (startsWith first fence && endsWith final fence) eqn:Hf;
    [|split; reflexivity].
  apply andb_prop in Hf as [Hs _].
  rewrite String_match_header, Hs in Hmatch. injection Hmatch as <-.
  rewrite header_groups_lang in Hlang. rewrite Hlang.
  assert (includes (ignore_list settings) (Some language) = true) as ->.
  { apply includes_In. unfold ignore_list. rewrite Hset.
    destruct setting as [|c setting']; [|exact Hin].
    destruct Hin as [<-|[]]. now apply header_lang_nonempty in Hlang. }
  split; reflexivity.
Qed.

Lemma ignored_language_unlabelled_witness :
  exists w',
    markdownPostProcessor default_settings (Some section_dataview_label)
      (fresh rendered_block) = Normal w' /\
    el w' = el (fresh rendered_block) /\
    ctx_children w' = ctx_children (fresh rendered_block).
Proof.
  refine (ignored_language_unlabelled default_settings section_dataview_label
            (fresh rendered_block)
            (js "dataview" ++ newline ++ js "dataviewjs" ++ newline ++ js "tasks")
            (js "```dataview {My Query}") (js "dataview")
            (<["label" := js "My Query"]> (<["lang" := js "dataview"]> ∅))
            _ _ _ _ _).
  - reflexivity.
  - vm_compute. left. reflexivity.
  - vm_compute. reflexivity.
  - vm_compute. reflexivity.
  - vm_compute. reflexivity.
Defined.

(** C3: when a guard fails (no [pre > code] descendant, no section
    information, fewer than two lines, a first line that does not start
    with three backticks, a last line that does not end with three
    backticks, or a header the pattern does not match) the routine returns
    with the state as it was: no label is prepended, no class is added and
    no data attribute is set. *)
Theorem failed_guard_no_mutation (settings : CBLSettings)
    (getSectionInfo : option MarkdownSectionInformation) (w : World) :
  GuardFails getSectionInfo w ->
  markdownPostProcessor settings getSectionInfo w = Normal w.
Proof.
  intros H. rewrite markdownPostProcessor_decision. f_equal.
  destruct H as [Hq | -> | section -> Hlen | section first -> Hfirst Hs
                 | section final -> Hlast He | section first -> Hfirst Hm].
  - now rewrite Hq.
  - now destruct (querySelector_pre_code (el w)).
  - destruct (querySelector_pre_code (el w)); [|reflexivity].
    unfold decision. apply Nat.ltb_lt in Hlen. now rewrite Hlen.
  - destruct (querySelector_pre_code (el w)); [|reflexivity].
    unfold decision. rewrite Hfirst, Hs.
    destruct (length (section_lines section) <? 2)%nat; [reflexivity|].
    now destruct (last (section_lines section)).
  - destruct (querySelector_pre_code (el w)); [|reflexivity].
    unfold decision. rewrite Hlast, He.
    destruct (length (section_lines section) <? 2)%nat; [reflexivity|].
    destruct (section_lines section !! 0%nat); [|reflexivity].
    now rewrite andb_false_r.
  - destruct (querySelector_pre_code (el w)); [|reflexivity].
    unfold decision. rewrite Hfirst. rewrite String_match_header in Hm.
    destruct (startsWith first fence); [discriminate|].
    destruct (length (section_lines section) <? 2)%nat; [reflexivity|].
    now destruct (last (section_lines section)).
Qed.

Lemma failed_guard_no_mutation_witness :
  markdownPostProcessor default_settings (Some section_unclosed)
    (fresh rendered_block)
  = Normal (fresh rendered_block).
Proof.
  apply failed_guard_no_mutation.
  apply (no_closing_fence _ _ section_unclosed (js "print(1)")).
  - reflexivity.
  - vm_compute. reflexivity.
  - vm_compute. reflexivity.
Defined.

(** C4, as the claim states it, fails on the header [```js {}]: the label
    group is not captured at all, and the null check does not hold of an
    empty string. *)
Lemma empty_braces_counterexample :
  String_match (js "```js {}") REGEX_FENCED_CODEBLOCK_START
    = Some (<["lang" := js "js"]> ∅) /\
  (<["lang" := js "js"]> ∅ : groups) !! "label" <> Some [] /\
  eq_null (Some []) = false.
Proof.
  split; [vm_compute; reflexivity|]. split; [|reflexivity].
  rewrite lookup_insert_ne by discriminate. rewrite lookup_empty. discriminate.
Qed.

(** C4, amended: on a header whose label directive has nothing between
    its braces (three backticks, a language run, whitespace, [{}]) the
    pattern leaves the label group unset, since a label needs at least one
    character; the null check holds of the unset group, and the language
    group is the language run. *)
Theorem empty_braces_label_unset (lang ws rest : list N) :
  forallb lang_class lang = true ->
  forallb is_ws ws = true ->
  exists g,
    String_match (fence ++ lang ++ ws ++ js "{}" ++ rest)
      REGEX_FENCED_CODEBLOCK_START = Some g /\
    g !! "label" = None /\
    eq_null (g !! "label") = true /\
    g !! "lang" = nonempty lang.
Proof.
  intros Hlang Hws. rewrite String_match_header.
  replace (startsWith (fence ++ lang ++ ws ++ js "{}" ++ rest) fence)
    with true by (symmetry; apply startsWith_app; eauto).
  eexists; split; [reflexivity|].
  rewrite header_groups_label, header_groups_lang.
  unfold header_label, header_lang.
  change (drop 3 (fence ++ lang ++ ws ++ js "{}" ++ rest))
    with (lang ++ ws ++ 123 :: 125 :: rest).
  rewrite run_app, after_app by exact Hlang.
  destruct (run_stop lang_class (ws ++ 123 :: 125 :: rest)) as [-> ->].
  { destruct ws as [|c ws']; [reflexivity|]. simpl in Hws |- *.
    apply andb_prop in Hws as [Hc _]. now apply ws_not_lang. }
  rewrite after_app by exact Hws. rewrite app_nil_r.
  split; [reflexivity|]. split; reflexivity.
Qed.

Lemma empty_braces_label_unset_witness :
  exists g,
    String_match (fence ++ js "js" ++ js " " ++ js "{}" ++ [])
      REGEX_FENCED_CODEBLOCK_START = Some g /\
    g !! "label" = None /\
    eq_null (g !! "label") = true /\
    g !! "lang" = nonempty (js "js").
Proof.
  apply (empty_braces_label_unset (js "js") (js " ") []); reflexivity.
Defined.

(** C5: the routine never throws.  On every input it returns normally, and
    the rendered output is either as it was or has the label applied. *)
Theorem never_throws (settings : CBLSettings)
    (getSectionInfo : option MarkdownSectionInformation) (w : World) :
  exists w',
    markdownPostProcessor settings getSectionInfo w = Normal w' /\
    (el w' = el w \/
     exists labelText language, w' = apply_label labelText language w).
Proof.
  rewrite markdownPostProcessor_decision. eexists; split; [reflexivity|].
  destruct (querySelector_pre_code (el w)); [|now left].
  destruct getSectionInfo as [section|]; [|now left].
  destruct (decision settings (section_lines section)) as [| |t l]; simpl;
    [now left | now left | right; eauto].
Qed.

(** C6: the header [```a^b] separates the pattern from the claim.  The
    maximal run of characters that are neither whitespace nor an opening
    brace is [a^b]; the pattern captures [a], its class listing the caret
    as well. *)
Theorem caret_ends_language :
  String_match (js "```a^b") REGEX_FENCED_CODEBLOCK_START
    = Some (<["lang" := js "a"]> ∅) /\
  spec_header_lang (js "```a^b") = Some (js "a^b").
Proof. split; vm_compute; reflexivity. Qed.

(** C7: two runs with the same settings, on sections whose spans hold the
    same text and on rendered outputs that agree on being a code block,
    take the same decision (whether to label, the label text, the recorded
    language): the rest of the document and of the state plays no part. *)
Theorem decision_deterministic (settings : CBLSettings)
    (section1 section2 : MarkdownSectionInformation) (w1 w2 : World) :
  span_text section1 = span_text section2 ->
  (querySelector_pre_code (el w1) = None
   <-> querySelector_pre_code (el w2) = None) ->
  exists d : Decision,
    markdownPostProcessor settings (Some section1) w1
      = Normal (apply_decision d w1) /\
    markdownPostProcessor settings (Some section2) w2
      = Normal (apply_decision d w2).
Proof.
  intros Hspan Hq. rewrite !markdownPostProcessor_decision.
  rewrite !section_lines_span, Hspan.
  destruct (querySelector_pre_code (el w1)) as [c1|],
           (querySelector_pre_code (el w2)) as [c2|].
  - eexists; split; reflexivity.
  - destruct Hq as [_ Hq]. discriminate Hq; reflexivity.
  - destruct Hq as [Hq _]. discriminate Hq; reflexivity.
  - exists Skip; split; reflexivity.
Qed.

Lemma decision_deterministic_witness :
  exists d : Decision,
    markdownPostProcessor default_settings (Some section_python_label)
      (fresh rendered_block)
      = Normal (apply_decision d (fresh rendered_block)) /\
    markdownPostProcessor default_settings (Some section_python_below)
      (console_log (js "earlier") (fresh rendered_block))
      = Normal (apply_decision d
                  (console_log (js "earlier") (fresh rendered_block))).
Proof.
  apply decision_deterministic.
  - vm_compute. reflexivity.
  - vm_compute. split; intros H; exact H.
Defined.

(** C8: after [loadSettings], whatever was persisted ([null], or an object
    with any of its keys missing), the settings object has both fields, and
    a field the persisted data lacks has its default: the three ignored
    languages for [ignoreLanguages], [true] for [showLanguageAsLabel]. *)
Theorem loadSettings_fields (loadData : option (gmap string JSValue)) :
  let persisted := default ∅ loadData in
  let settings := loadSettings loadData in
  (is_Some (settings !! "ignoreLanguages") /\
   is_Some (settings !! "showLanguageAsLabel")) /\
  (persisted !! "ignoreLanguages" = None ->
   settings !! "ignoreLanguages"
   = Some (JString (js "dataview" ++ newline ++ js "dataviewjs" ++ newline
                    ++ js "tasks"))) /\
  (persisted !! "showLanguageAsLabel" = None ->
   settings !! "showLanguageAsLabel" = Some (JBool true)).
Proof.
  cbv zeta. rewrite !loadSettings_lookup by discriminate.
  unfold DEFAULT_SETTINGS.
  rewrite lookup_insert_ne by discriminate.
  rewrite !lookup_insert_eq.
  split; [split|split].
  - destruct (default ∅ loadData !! "ignoreLanguages"); simpl; eauto.
  - destruct (default ∅ loadData !! "showLanguageAsLabel"); simpl; eauto.
  - now intros ->.
  - now intros ->.
Qed.

Lemma loadSettings_fields_witness :
  (is_Some (loadSettings (Some {["showLanguageAsLabel" := JBool false]})
              !! "ignoreLanguages") /\
   is_Some (loadSettings (Some {["showLanguageAsLabel" := JBool false]})
              !! "showLanguageAsLabel")) /\
  loadSettings (Some {["showLanguageAsLabel" := JBool false]})
    !! "ignoreLanguages"
  = Some (JString (js "dataview" ++ newline ++ js "dataviewjs" ++ newline
                   ++ js "tasks")).
Proof.
  destruct (loadSettings_fields (Some {["showLanguageAsLabel" := JBool false]}))
    as (Hboth & Hignore & _).
  split; [exact Hboth|]. apply Hignore. reflexivity.
Defined.

(** C9: the pattern matches every line that starts with three backticks,
    so once the fence test has passed the match is never [null]. *)
Theorem fenced_line_matches (line : list N) :
  startsWith line fence = true ->
  is_Some (String_match line REGEX_FENCED_CODEBLOCK_START).
Proof.
  intros Hs. rewrite String_match_header, Hs. eauto.
Qed.

Lemma fenced_line_matches_witness :
  is_Some (String_match (js "```python") REGEX_FENCED_CODEBLOCK_START).
Proof.
  apply fenced_line_matches. reflexivity.
Defined.

(** C10: on a well-formed span whose header has a non-empty label between
    braces and no language token, the routine returns normally and shows
    that label (a [p] of class [codeblock-label] holding it is the first
    child of the output, and the output has the marker class) with the
    language unset; the assignment to the [language] data attribute is
    made with the unset value, which the dataset stores as a string. *)
Theorem label_without_language (settings : CBLSettings)
    (section : MarkdownSectionInformation) (w : World)
    (ws label rest final : list N) :
  is_Some (querySelector_pre_code (el w)) ->
  (2 <= length (section_lines section))%nat ->
  section_lines section !! 0%nat
    = Some (fence ++ ws ++ js "{" ++ label ++ js "}" ++ rest) ->
  forallb is_ws ws = true ->
  label <> [] ->
  forallb label_class label = true ->
  last (section_lines section) = Some final ->
  endsWith final fence = true ->
  exists w',
    markdownPostProcessor settings (Some section) w = Normal w' /\
    labelled label None w w' /\
    dataset (el w') !! "language" = Some (js "undefined").
Proof.
  intros [code Hq] Hlen Hfirst Hws Hne Hlab Hlast Hend.
  exists (apply_label label None w).
  split; [|split; [now apply apply_label_labelled | apply lookup_insert_eq]].
  rewrite markdownPostProcessor_decision, Hq. f_equal.
  unfold decision. rewrite Hfirst, Hlast, Hend.
  apply Nat.ltb_ge in Hlen. rewrite Hlen.
  replace (startsWith (fence ++ ws ++ js "{" ++ label ++ js "}" ++ rest) fence)
    with true by (symmetry; apply startsWith_app; eauto).
  cbn [andb]. unfold header_lang, header_label.
  change (drop 3 (fence ++ ws ++ js "{" ++ label ++ js "}" ++ rest))
    with (ws ++ 123 :: label ++ 125 :: rest).
  destruct (run_stop lang_class (ws ++ 123 :: label ++ 125 :: rest))
    as [-> ->].
  { destruct ws as [|c ws']; [reflexivity|]. simpl in Hws |- *.
    apply andb_prop in Hws as [Hc _]. now apply ws_not_lang. }
  cbn [nonempty includes]. rewrite after_app by exact Hws.
  cbn [after]. change (is_ws 123) with false. cbv iota.
  unfold brace_label. rewrite N.eqb_refl.
  rewrite run_app, after_app by exact Hlab.
  cbn [run after]. change (label_class 125) with false. cbv iota.
  rewrite app_nil_r, N.eqb_refl.
  destruct label as [|c label']; [congruence|]. reflexivity.
Qed.

Lemma label_without_language_witness :
  exists w',
    markdownPostProcessor default_settings (Some section_label_only)
      (fresh rendered_block) = Normal w' /\
    labelled (js "My Label") None (fresh rendered_block) w' /\
    dataset (el w') !! "language" = Some (js "undefined").
Proof.
  apply (label_without_language default_settings section_label_only
           (fresh rendered_block) [] (js "My Label") [] (js "```")).
  - vm_compute. eauto.
  - vm_compute. lia.
  - vm_compute. reflexivity.
  - reflexivity.
  - discriminate.
  - reflexivity.
  - vm_compute. reflexivity.
  - reflexivity.
Defined.

(** ** Further properties of the header pattern *)

Lemma run_followed (p : N -> bool) (a b : list N) :
  forallb p a = true ->
  match b with c :: _ => p c = false | [] => True end ->
  run p (a ++ b) = a /\ after p (a ++ b) = b.
Proof.
  intros Ha Hb. rewrite run_app, after_app by exact Ha.
  destruct (run_stop p b Hb) as [-> ->]. now rewrite app_nil_r.
Qed.

(** X1: A header written as three backticks, a language, whitespace and a
    label between braces is read back as that language and that label,
    whatever follows the closing brace. *)
Theorem header_read_back (lang ws label rest : list N) :
  forallb lang_class lang = true ->
  forallb is_ws ws = true ->
  label <> [] ->
  forallb label_class label = true ->
  exists g,
    String_match (fence ++ lang ++ ws ++ js "{" ++ label ++ js "}" ++ rest)
      REGEX_FENCED_CODEBLOCK_START = Some g /\
    g !! "lang" = nonempty lang /\
    g !! "label" = Some label.
Proof.
  intros Hlang Hws Hne Hlab. rewrite String_match_header.
  replace (startsWith (fence ++ lang ++ ws ++ js "{" ++ label ++ js "}" ++ rest)
             fence)
    with true by (symmetry; apply startsWith_app; eauto).
  eexists; split; [reflexivity|].
  rewrite header_groups_label, header_groups_lang.
  unfold header_label, header_lang.
  change (drop 3 (fence ++ lang ++ ws ++ js "{" ++ label ++ js "}" ++ rest))
    with (lang ++ ws ++ 123 :: label ++ 125 :: rest).
  destruct (run_followed lang_class lang (ws ++ 123 :: label ++ 125 :: rest))
    as [-> ->]; [exact Hlang | |].
  { destruct ws as [|c ws']; [reflexivity|]. simpl in Hws |- *.
    apply andb_prop in Hws as [Hc _]. now apply ws_not_lang. }
  split; [reflexivity|].
  destruct (run_followed is_ws ws (123 :: label ++ 125 :: rest))
    as [_ ->]; [exact Hws | reflexivity |].
  unfold brace_label. rewrite N.eqb_refl.
  destruct (run_followed label_class label (125 :: rest))
    as [-> ->]; [exact Hlab | reflexivity |].
  rewrite N.eqb_refl. now destruct label.
Qed.

Lemma header_read_back_witness :
  exists g,
    String_match
      (fence ++ js "python" ++ js "  " ++ js "{" ++ js "My Script" ++ js "}"
       ++ js " trailing text")
      REGEX_FENCED_CODEBLOCK_START = Some g /\
    g !! "lang" = nonempty (js "python") /\
    g !! "label" = Some (js "My Script").
Proof.
  apply (header_read_back (js "python") (js "  ") (js "My Script")
           (js " trailing text")).
  - reflexivity.
  - reflexivity.
  - discriminate.
  - reflexivity.
Defined.

(** X2: A label is captured only from a directive of that shape: the line is
    three backticks, a run of language characters, a run of whitespace,
    and the label between braces; the label is not empty and holds no
    closing brace. *)
Theorem label_only_from_directive (line label : list N) (g : groups) :
  String_match line REGEX_FENCED_CODEBLOCK_START = Some g ->
  g !! "label" = Some label ->
  exists lang ws rest,
    line = fence ++ lang ++ ws ++ js "{" ++ label ++ js "}" ++ rest /\
    forallb lang_class lang = true /\
    forallb is_ws ws = true /\
    label <> [] /\
    forallb label_class label = true.
Proof.
  rewrite String_match_header.
  destruct (startsWith line fence) eqn:Hs; [|discriminate].
  intros [= <-]. rewrite header_groups_label. unfold header_label.
  apply startsWith_app in Hs as [r ->].
  change (drop 3 (fence ++ r)) with r.
  destruct (run_maximal lang_class r) as (Hr & Hlang & _).
  destruct (run_maximal is_ws (after lang_class r)) as (Hr1 & Hws & _).
  unfold brace_label.
  destruct (after is_ws (after lang_class r)) as [|c body] eqn:Hr2;
    [discriminate|].
  destruct (N.eqb_spec c 123) as [->|_]; [|discriminate].
  destruct (run_maximal label_class body) as (Hb & Hlab & _).
  destruct (nonempty (run label_class body)) as [lab|] eqn:Hn; [|discriminate].
  apply nonempty_Some in Hn as [Hn Hne].
  destruct (after label_class body) as [|c' rest] eqn:Hrest; [discriminate|].
  destruct (N.eqb_spec c' 125) as [->|_]; [|discriminate].
  intros [= <-]. rewrite Hn in Hb, Hlab.
  exists (run lang_class r), (run is_ws (after lang_class r)), rest.
  split; [|now repeat split].
  rewrite Hr at 1. rewrite Hr1 at 1. rewrite Hb. reflexivity.
Qed.

Lemma label_only_from_directive_witness :
  exists lang ws rest,
    js "```js {a b} c" = fence ++ lang ++ ws ++ js "{" ++ js "a b" ++ js "}" ++ rest /\
    forallb lang_class lang = true /\
    forallb is_ws ws = true /\
    js "a b" <> [] /\
    forallb label_class (js "a b") = true.
Proof.
  apply (label_only_from_directive (js "```js {a b} c") (js "a b")
           (<["label" := js "a b"]> (<["lang" := js "js"]> ∅))).
  - vm_compute. reflexivity.
  - vm_compute. reflexivity.
Defined.

(** X3: A captured language is never empty, starts right after the backticks,
    holds no whitespace, caret or opening brace, and is followed by the end
    of the line or by one of those characters. *)
Theorem language_token_shape (line language : list N) (g : groups) :
  String_match line REGEX_FENCED_CODEBLOCK_START = Some g ->
  g !! "lang" = Some language ->
  language <> [] /\
  forallb lang_class language = true /\
  exists rest,
    line = fence ++ language ++ rest /\
    match rest with c :: _ => lang_class c = false | [] => True end.
Proof.
  rewrite String_match_header.
  destruct (startsWith line fence) eqn:Hs; [|discriminate].
  intros [= <-]. rewrite header_groups_lang. unfold header_lang.
  apply startsWith_app in Hs as [r ->].
  change (drop 3 (fence ++ r)) with r.
  destruct (run_maximal lang_class r) as (Hr & Hlang & Hnext).
  intros [Hn Hne]%nonempty_Some. rewrite Hn in Hr, Hlang.
  split; [exact Hne|]. split; [exact Hlang|].
  exists (after lang_class r). split; [now rewrite Hr at 1 | exact Hnext].
Qed.

Lemma language_token_shape_witness :
  js "c++" <> [] /\
  forallb lang_class (js "c++") = true /\
  exists rest,
    js "```c++ {x}" = fence ++ js "c++" ++ rest /\
    match rest with c :: _ => lang_class c = false | [] => True end.
Proof.
  apply (language_token_shape (js "```c++ {x}") (js "c++")
           (<["label" := js "x"]> (<["lang" := js "c++"]> ∅))).
  - vm_compute. reflexivity.
  - vm_compute. reflexivity.
Defined.

(** ** Further properties of the post-processor *)

Lemma header_lang_class (line l : list N) :
  header_lang line = Some l -> forallb lang_class l = true.
Proof.
  unfold header_lang. intros [<- _]%nonempty_Some. apply run_all.
Qed.

(** What a labelling decision rests on. *)
Lemma decision_Labelled (settings : CBLSettings) (lines : list (list N))
    (t : list N) (l : option (list N)) :
  decision settings lines = Labelled t l ->
  exists first,
    lines !! 0%nat = Some first /\
    l = header_lang first /\
    includes (ignore_list settings) l = false /\
    (header_label first = Some t \/ l = Some t).
Proof.
  unfold decision.
  destruct (length lines <? 2)%nat; [discriminate|].
  destruct (lines !! 0%nat) as [first|]; [|discriminate].
  destruct (last lines) as [final|]; [|discriminate].
  destruct (startsWith first fence && endsWith final fence); [|discriminate].
  destruct (includes (ignore_list settings) (header_lang first)) eqn:Hi;
    [discriminate|].
  destruct (header_label first) as [lab|] eqn:Hl.
  - intros [= <- <-]. exists first. auto.
  - destruct (showLanguageAsLabel settings); [|discriminate].
    destruct (header_lang first) as [lang|] eqn:Hh; [|discriminate].
    intros [= <- <-]. exists first. rewrite Hh. auto.
Qed.

(** The label element holds no [pre > code], so the search finds in the
    labelled output what it found before. *)
Lemma querySelector_labelled (t : list N) (l : option (list N)) (w : World) :
  querySelector_pre_code (el (apply_label t l w))
  = querySelector_pre_code (el w).
Proof.
  destruct w as [[name cls ds children] out kids]. simpl.
  rewrite andb_false_r. now destruct t.
Qed.

Lemma apply_label_changes (t : list N) (l : option (list N)) (w : World) :
  ctx_children (apply_label t l w) <> ctx_children w.
Proof.
  simpl. intros H. apply (f_equal length) in H.
  rewrite length_app in H. simpl in H. lia.
Qed.

(** Two labellings that agree on one state agree on every state. *)
Lemma apply_label_transfer (t t' : list N) (l l' : option (list N))
    (w w0 : World) :
  apply_label t' l' w = apply_label t l w ->
  apply_label t' l' w0 = apply_label t l w0.
Proof.
  intros H.
  assert (Hk : ctx_children (apply_label t' l' w)
               = ctx_children (apply_label t l w)) by now rewrite H.
  assert (Hd : dataset (el (apply_label t' l' w)) !! "language"
               = dataset (el (apply_label t l w)) !! "language")
    by now rewrite H.
  simpl in Hk, Hd. apply app_inv_head in Hk. injection Hk as Hk.
  rewrite !lookup_insert_eq in Hd. injection Hd as Hd.
  unfold apply_label, dataset_set, prepend, setText. simpl.
  now rewrite Hk, Hd.
Qed.

Lemma addClass_twice (cls : string) (e : HTMLElement) :
  classList (addClass cls (addClass cls e)) = classList (addClass cls e).
Proof.
  simpl. destruct (bool_decide (cls ∈ classList e)) eqn:E.
  - now rewrite E.
  - rewrite bool_decide_eq_true_2; [reflexivity|].
    apply elem_of_app. right. constructor.
Qed.

(** X4: The routine does not look for a label it applied earlier: a run that
    labels the output labels it again when repeated on the result.  The
    output then holds the label twice; its marker class is there once. *)
Theorem second_run_labels_again (settings : CBLSettings)
    (getSectionInfo : option MarkdownSectionInformation) (w : World)
    (labelText : list N) (language : option (list N)) :
  markdownPostProcessor settings getSectionInfo w
    = Normal (apply_label labelText language w) ->
  let label := setText labelText (addClass "codeblock-label" (createElement "p")) in
  let w1 := apply_label labelText language w in
  let w2 := apply_label labelText language w1 in
  markdownPostProcessor settings getSectionInfo w1 = Normal w2 /\
  childNodes (el w2) = inr label :: inr label :: childNodes (el w) /\
  classList (el w2) = classList (el w1).
Proof.
  intros H label w1 w2.
  split; [|split; [reflexivity | apply addClass_twice]].
  rewrite markdownPostProcessor_decision in H |- *. injection H as H.
  unfold w1 at 1. rewrite querySelector_labelled.
  assert (Hneq : w <> apply_label labelText language w).
  { intros E. apply (apply_label_changes labelText language w).
    now rewrite <- E. }
  destruct (querySelector_pre_code (el w)); [|contradiction].
  destruct getSectionInfo as [section|]; [|contradiction].
  destruct (decision settings (section_lines section)) as [| lang | t l];
    simpl in H |- *.
  - contradiction.
  - exfalso. apply (apply_label_changes labelText language w).
    now rewrite <- H.
  - f_equal. now apply apply_label_transfer with (w := w).
Qed.

Lemma second_run_labels_again_witness :
  markdownPostProcessor default_settings (Some section_python)
    (apply_label (js "python") (Some (js "python")) (fresh rendered_block))
  = Normal (apply_label (js "python") (Some (js "python"))
              (apply_label (js "python") (Some (js "python"))
                 (fresh rendered_block))).
Proof.
  apply (second_run_labels_again default_settings (Some section_python)
           (fresh rendered_block) (js "python") (Some (js "python"))).
  vm_compute. reflexivity.
Defined.

(** X5: The routine only adds: the children of the output stay, in their order,
    behind what was prepended; its classes stay, in their order, before
    what was added; its name and every data attribute other than
    [language] are as they were; the console and the children registered
    with the context only grow. *)
Theorem only_adds (settings : CBLSettings)
    (getSectionInfo : option MarkdownSectionInformation) (w : World) :
  exists w',
    markdownPostProcessor settings getSectionInfo w = Normal w' /\
    localName (el w') = localName (el w) /\
    (exists added, childNodes (el w') = added ++ childNodes (el w)) /\
    (exists added, classList (el w') = classList (el w) ++ added) /\
    (forall key, key <> "language" ->
                 dataset (el w') !! key = dataset (el w) !! key) /\
    (exists added, console w' = console w ++ added) /\
    (exists added, ctx_children w' = ctx_children w ++ added).
Proof.
  rewrite markdownPostProcessor_decision. eexists; split; [reflexivity|].
  assert (Hsame : localName (el w) = localName (el w) /\
    (exists added, childNodes (el w) = added ++ childNodes (el w)) /\
    (exists added, classList (el w) = classList (el w) ++ added) /\
    (forall key, key <> "language" ->
                 dataset (el w) !! key = dataset (el w) !! key) /\
    (exists added, console w = console w ++ added) /\
    (exists added, ctx_children w = ctx_children w ++ added)).
  { repeat split; try (exists []; now rewrite ?app_nil_r). }
  destruct (querySelector_pre_code (el w)); [|exact Hsame].
  destruct getSectionInfo as [section|]; [|exact Hsame].
  destruct (decision settings (section_lines section)) as [| lang | t l];
    [exact Hsame | |].
  - destruct Hsame as (H1 & H2 & H3 & H4 & _ & H6).
    simpl. repeat split; eauto.
  - simpl. split; [reflexivity|]. split; [eexists [_]; reflexivity|].
    split.
    { destruct (bool_decide ("labeled-codeblock" ∈ classList (el w)));
        [exists []; now rewrite app_nil_r | eauto]. }
    split; [intros key Hkey; now apply lookup_insert_ne|].
    split; [exists []; now rewrite app_nil_r | eauto].
Qed.

Lemma only_adds_witness :
  exists w',
    markdownPostProcessor default_settings (Some section_python)
      (fresh rendered_block) = Normal w' /\
    localName (el w') = localName (el (fresh rendered_block)) /\
    (exists added,
       childNodes (el w') = added ++ childNodes (el (fresh rendered_block))) /\
    (exists added,
       classList (el w') = classList (el (fresh rendered_block)) ++ added) /\
    (forall key, key <> "language" ->
                 dataset (el w') !! key
                 = dataset (el (fresh rendered_block)) !! key) /\
    (exists added, console w' = console (fresh rendered_block) ++ added) /\
    (exists added,
       ctx_children w' = ctx_children (fresh rendered_block) ++ added).
Proof.
  exact (only_adds default_settings (Some section_python)
           (fresh rendered_block)).
Defined.

(** X6: Whenever the routine changes the output it is by a label whose text
    is not empty; the language it records is not on the ignore list; and
    the text is either that language or a label free of closing braces. *)
Theorem applied_label_shape (settings : CBLSettings)
    (getSectionInfo : option MarkdownSectionInformation) (w : World) :
  exists w',
    markdownPostProcessor settings getSectionInfo w = Normal w' /\
    ((el w' = el w /\ ctx_children w' = ctx_children w) \/
     exists labelText language,
       w' = apply_label labelText language w /\
       labelText <> [] /\
       includes (ignore_list settings) language = false /\
       (language = Some labelText \/ forallb label_class labelText = true)).
Proof.
  rewrite markdownPostProcessor_decision. eexists; split; [reflexivity|].
  destruct (querySelector_pre_code (el w)); [|now left].
  destruct getSectionInfo as [section|]; [|now left].
  destruct (decision settings (section_lines section)) as [| lang | t l] eqn:Hd;
    [now left | now left |].
  right. exists t, l. split; [reflexivity|].
  apply decision_Labelled in Hd as (first & _ & Hl & Hi & Hsrc).
  destruct Hsrc as [Hlab | Hlang].
  - apply brace_label_Some in Hlab as [Hne Hclass]. auto.
  - split; [|auto]. rewrite Hlang in Hl. symmetry in Hl.
    now apply header_lang_nonempty in Hl.
Qed.

Lemma slice_length_le {A} (a : list A) (i j : Z) :
  (0 <= i)%Z -> (0 <= j)%Z -> (length (slice a i j) <= Z.to_nat (j - i))%nat.
Proof.
  intros Hi Hj. unfold slice. rewrite length_take, length_drop.
  destruct (Z.ltb_spec i 0), (Z.ltb_spec j 0); lia.
Qed.

Lemma slice_length_drop {A} (a : list A) (i j : Z) :
  (0 <= i)%Z -> (length (slice a i j) <= length a - Z.to_nat i)%nat.
Proof.
  intros Hi. unfold slice. rewrite length_take, length_drop.
  destruct (Z.ltb_spec i 0), (Z.ltb_spec j 0); lia.
Qed.

(** X7: A span of one line or none is never labelled: when the end line is
    not after the start line, or the start line is the last line of the
    document or beyond it, the routine changes nothing. *)
Theorem short_span_unchanged (settings : CBLSettings)
    (section : MarkdownSectionInformation) (w : World) :
  (0 <= lineStart section)%Z ->
  (-1 <= lineEnd section <= lineStart section)%Z \/
  (Z.of_nat (length (split 10 (text section))) - 1 <= lineStart section)%Z ->
  markdownPostProcessor settings (Some section) w = Normal w.
Proof.
  intros Hstart Hshort. rewrite markdownPostProcessor_decision. f_equal.
  destruct (querySelector_pre_code (el w)); [|reflexivity].
  assert (Hlen : (length (section_lines section) < 2)%nat).
  { unfold section_lines. destruct Hshort as [Hend | Hlast].
    - pose proof (slice_length_le (List.map trim (split 10 (text section)))
                    (lineStart section) (lineEnd section + 1)). lia.
    - pose proof (slice_length_drop (List.map trim (split 10 (text section)))
                    (lineStart section) (lineEnd section + 1)) as H.
      rewrite length_map in H. lia. }
  unfold decision. apply Nat.ltb_lt in Hlen. now rewrite Hlen.
Qed.

Lemma short_span_unchanged_witness :
  markdownPostProcessor default_settings (Some section_header_only)
    (fresh rendered_block)
  = Normal (fresh rendered_block).
Proof.
  apply short_span_unchanged.
  - vm_compute. discriminate.
  - left. vm_compute. split; discriminate.
Defined.

(** X8: Line numbers count from zero and the end line belongs to the span: for
    line numbers that are not negative, line [i] of the span, up to the end
    line, is line [lineStart + i] of the document, trimmed; past the end
    line the span has no line. *)
Theorem span_line_index (section : MarkdownSectionInformation) (i : nat) :
  (0 <= lineStart section)%Z ->
  (0 <= lineEnd section)%Z ->
  section_lines section !! i
  = if (Z.of_nat i <=? lineEnd section - lineStart section)%Z
    then trim <$> (split 10 (text section)
                     !! (Z.to_nat (lineStart section) + i)%nat)
    else None.
Proof.
  intros Hstart Hend. unfold section_lines, slice.
  change (@List.map (list N) (list N) trim) with (@fmap list _ (list N) (list N) trim).
  rewrite length_fmap, <- list_lookup_fmap.
  set (lines := trim <$> split 10 (text section)).
  assert (Hlen : length lines = length (split 10 (text section)))
    by apply length_fmap.
  rewrite <- Hlen. clearbody lines. clear Hlen.
  destruct (Z.ltb_spec (lineStart section) 0) as [?|_]; [lia|].
  destruct (Z.leb_spec (Z.of_nat i) (lineEnd section - lineStart section))
    as [Hin | Hout].
  - destruct (Z.ltb_spec (lineEnd section + 1) 0) as [?|_]; [lia|].
    destruct (Nat.lt_ge_cases (Z.to_nat (lineStart section) + i) (length lines))
      as [Hdoc | Hdoc].
    + rewrite lookup_take_lt by lia. rewrite lookup_drop. f_equal. lia.
    + rewrite (lookup_ge_None_2 lines) by lia.
      apply lookup_ge_None_2. rewrite length_take, length_drop. lia.
  - apply lookup_ge_None_2. rewrite length_take, length_drop.
    destruct (Z.ltb_spec (lineEnd section + 1) 0); lia.
Qed.

Lemma span_line_index_witness :
  section_lines section_python_below !! 0%nat
  = if (Z.of_nat 0 <=? lineEnd section_python_below
                        - lineStart section_python_below)%Z
    then trim <$> (split 10 (text section_python_below)
                     !! (Z.to_nat (lineStart section_python_below) + 0)%nat)
    else None.
Proof.
  apply span_line_index; vm_compute; discriminate.
Defined.

(** X9: Of a span of two lines or more the routine reads the trimmed first
    line and whether the trimmed last line ends with three backticks; the
    lines between them, and the surrounding whitespace of every line, play
    no part. *)
Theorem only_header_and_closing_matter (settings : CBLSettings)
    (section1 section2 : MarkdownSectionInformation) (w : World) :
  (2 <= length (section_lines section1))%nat ->
  (2 <= length (section_lines section2))%nat ->
  section_lines section1 !! 0%nat = section_lines section2 !! 0%nat ->
  (fun l => endsWith l fence) <$> last (section_lines section1)
    = (fun l => endsWith l fence) <$> last (section_lines section2) ->
  markdownPostProcessor settings (Some section1) w
  = markdownPostProcessor settings (Some section2) w.
Proof.
  intros H1 H2 Hfirst Hlast. rewrite !markdownPostProcessor_decision.
  destruct (querySelector_pre_code (el w)); [|reflexivity].
  do 2 f_equal. unfold decision.
  apply Nat.ltb_ge in H1, H2. rewrite H1, H2, Hfirst.
  destruct (section_lines section2 !! 0%nat) as [first|]; [|reflexivity].
  destruct (last (section_lines section1)) as [final1|],
           (last (section_lines section2)) as [final2|];
    simpl in Hlast; try discriminate; [|reflexivity].
  injection Hlast as ->. reflexivity.
Qed.

Lemma only_header_and_closing_matter_witness :
  markdownPostProcessor default_settings (Some section_python)
    (fresh rendered_block)
  = markdownPostProcessor default_settings (Some section_python_indented)
      (fresh rendered_block).
Proof.
  apply only_header_and_closing_matter.
  - vm_compute. lia.
  - vm_compute. lia.
  - vm_compute. reflexivity.
  - vm_compute. reflexivity.
Defined.

(** X10: An entry of the ignore list that is empty or holds a character no
    language token can hold (whitespace, a caret, an opening brace)
    ignores nothing: with only such entries the routine does what it does
    with no ignore setting at all. *)
Theorem unusable_ignore_entries (settings : CBLSettings)
    (getSectionInfo : option MarkdownSectionInformation) (w : World) :
  Forall (fun entry => entry = [] \/ forallb lang_class entry = false)
    (ignore_list settings) ->
  markdownPostProcessor settings getSectionInfo w
  = markdownPostProcessor
      {| ignoreLanguages := None;
         showLanguageAsLabel := showLanguageAsLabel settings |}
      getSectionInfo w.
Proof.
  intros Hall. rewrite !markdownPostProcessor_decision.
  destruct (querySelector_pre_code (el w)); [|reflexivity].
  destruct getSectionInfo as [section|]; [|reflexivity].
  do 2 f_equal. unfold decision.
  destruct (length (section_lines section) <? 2)%nat; [reflexivity|].
  destruct (section_lines section !! 0%nat) as [first|]; [|reflexivity].
  destruct (last (section_lines section)) as [final|]; [|reflexivity].
  destruct (startsWith first fence && endsWith final fence); [|reflexivity].
  assert (includes (ignore_list settings) (header_lang first) = false) as ->.
  { destruct (header_lang first) as [l|] eqn:Hl; [|reflexivity].
    destruct (includes (ignore_list settings) (Some l)) eqn:Hi; [|reflexivity].
    apply includes_In in Hi. rewrite List.Forall_forall in Hall.
    destruct (Hall l Hi) as [-> | Hbad].
    - now apply header_lang_nonempty in Hl.
    - apply header_lang_class in Hl. congruence. }
  now destruct (header_lang first).
Qed.

Lemma unusable_ignore_entries_witness :
  markdownPostProcessor
    {| ignoreLanguages := Some (js "dataview, tasks");
       showLanguageAsLabel := true |}
    (Some section_dataview) (fresh rendered_block)
  = markdownPostProcessor
      {| ignoreLanguages := None; showLanguageAsLabel := true |}
      (Some section_dataview) (fresh rendered_block).
Proof.
  apply (unusable_ignore_entries
           {| ignoreLanguages := Some (js "dataview, tasks");
              showLanguageAsLabel := true |}).
  vm_compute. constructor; [right; reflexivity | constructor].
Defined.

(** ** Settings: loading, saving and the form *)

Lemma DEFAULT_SETTINGS_keys (k : string) :
  is_Some (DEFAULT_SETTINGS !! k)
  <-> k = "ignoreLanguages" \/ k = "showLanguageAsLabel".
Proof.
  unfold DEFAULT_SETTINGS. split.
  - intros [v Hv].
    destruct (decide (k = "showLanguageAsLabel")) as [->|Hs]; [now right|].
    rewrite lookup_insert_ne in Hv by congruence.
    destruct (decide (k = "ignoreLanguages")) as [->|Hi]; [now left|].
    rewrite lookup_insert_ne in Hv by congruence.
    rewrite lookup_empty in Hv. discriminate.
  - intros [-> | ->].
    + rewrite lookup_insert_ne by discriminate. rewrite lookup_insert_eq. eauto.
    + rewrite lookup_insert_eq. eauto.
Qed.

Lemma loadSettings_has_both (stored : option (gmap string JSValue)) :
  has_both_fields (loadSettings stored).
Proof.
  split; rewrite loadSettings_lookup by discriminate;
    (destruct (default ∅ stored !! _); [eauto|]);
    apply DEFAULT_SETTINGS_keys; auto.
Qed.

Lemma loadSettings_no_proto (stored : option (gmap string JSValue)) :
  loadSettings stored !! "__proto__" = None.
Proof.
  unfold loadSettings, Object_assign. simpl. rewrite (right_id_L ∅ (∪)).
  destruct stored as [o|]; simpl.
  - now rewrite lookup_union, !lookup_delete_eq.
  - now rewrite lookup_delete_eq.
Qed.

(** Settings that hold both fields are loaded back as they were saved. *)
Lemma loadSettings_saved (o : gmap string JSValue) :
  has_both_fields o -> o !! "__proto__" = None -> loadSettings (Some o) = o.
Proof.
  intros [Hi Hs] Hp. apply map_eq. intros k.
  destruct (decide (k = "__proto__")) as [->|Hne];
    [now rewrite loadSettings_no_proto|].
  rewrite loadSettings_lookup by exact Hne. simpl.
  destruct (o !! k) eqn:Hk; [reflexivity|].
  destruct (DEFAULT_SETTINGS !! k) eqn:Hd; [|reflexivity].
  assert (is_Some (DEFAULT_SETTINGS !! k)) as [-> | ->]%DEFAULT_SETTINGS_keys
    by eauto.
  - rewrite Hk in Hi. now destruct Hi.
  - rewrite Hk in Hs. now destruct Hs.
Qed.

Lemma onChange_has_both (ev : FormEvent) (p : CBLPlugin) :
  has_both_fields (this_settings p) ->
  has_both_fields (this_settings (onChange ev p)).
Proof.
  intros [Hi Hs]. destruct ev; simpl; split;
    rewrite ?lookup_insert_eq; rewrite ?lookup_insert_ne by discriminate;
    eauto.
Qed.

Lemma onChange_no_proto (ev : FormEvent) (p : CBLPlugin) :
  this_settings p !! "__proto__" = None ->
  this_settings (onChange ev p) !! "__proto__" = None.
Proof.
  intros H. destruct ev; simpl; now rewrite lookup_insert_ne by discriminate.
Qed.

Lemma session_snoc (stored : option (gmap string JSValue))
    (events : list FormEvent) (ev : FormEvent) :
  session stored (events ++ [ev]) = onChange ev (session stored events).
Proof. unfold session. now rewrite foldl_app. Qed.

Lemma session_has_both (stored : option (gmap string JSValue))
    (events : list FormEvent) :
  has_both_fields (this_settings (session stored events)).
Proof.
  induction events as [|ev events IH] using rev_ind.
  - apply loadSettings_has_both.
  - rewrite session_snoc. now apply onChange_has_both.
Qed.

Lemma session_no_proto (stored : option (gmap string JSValue))
    (events : list FormEvent) :
  this_settings (session stored events) !! "__proto__" = None.
Proof.
  induction events as [|ev events IH] using rev_ind.
  - apply loadSettings_no_proto.
  - rewrite session_snoc. now apply onChange_no_proto.
Qed.

Lemma session_reload (stored : option (gmap string JSValue))
    (events : list FormEvent) :
  loadSettings (stored_data (session stored events))
  = this_settings (session stored events).
Proof.
  destruct events as [|ev events _] using rev_ind; [reflexivity|].
  rewrite session_snoc.
  pose proof (session_has_both stored events) as Hboth.
  apply (onChange_has_both ev) in Hboth.
  pose proof (session_no_proto stored events) as Hproto.
  apply (onChange_no_proto ev) in Hproto.
  destruct ev; simpl in *; now apply loadSettings_saved.
Qed.

(** X11: Whatever the host kept at the start and whatever was edited in the
    form, loading again from what the host keeps at the end gives the
    settings the plugin holds: nothing edited is lost by a restart, and
    nothing is reset to a default. *)
Theorem settings_survive_restart (stored : option (gmap string JSValue))
    (events : list FormEvent) :
  this_settings (onload (stored_data (session stored events)))
  = this_settings (session stored events).
Proof. apply session_reload. Qed.

(** X12: After an edit and a restart the edited field holds what was entered:
    the ignore text as typed, the empty text too (the defaults fill in
    absent fields only), and the toggle as set; the other field holds what
    it held before the edit. *)
Theorem form_edit_kept (stored : option (gmap string JSValue))
    (events : list FormEvent) :
  let before := this_settings (session stored events) in
  (forall val,
     let after :=
       this_settings
         (onload (stored_data (session stored (events ++ [EditIgnore val])))) in
     after !! "ignoreLanguages" = Some (JString val) /\
     after !! "showLanguageAsLabel" = before !! "showLanguageAsLabel") /\
  (forall value,
     let after :=
       this_settings
         (onload (stored_data
                    (session stored (events ++ [ToggleShowLanguage value])))) in
     after !! "showLanguageAsLabel" = Some (JBool value) /\
     after !! "ignoreLanguages" = before !! "ignoreLanguages").
Proof.
  cbv zeta. split; intros v; cbn [onload this_settings];
    rewrite session_reload, session_snoc; simpl;
    rewrite lookup_insert_eq; rewrite lookup_insert_ne by discriminate;
    auto.
Qed.

Lemma as_CBLSettings_read (o : gmap string JSValue) (s : CBLSettings) :
  as_CBLSettings o = Some s -> settings_read o = Normal s.
Proof.
  unfold as_CBLSettings, settings_read.
  destruct (o !! "showLanguageAsLabel") as [[| b | | | |]|]; try discriminate.
  destruct (o !! "ignoreLanguages") as [[| | | t | |]|]; try discriminate;
    now intros [= <-].
Qed.

Lemma onChange_typed (ev : FormEvent) (p : CBLPlugin) (s : CBLSettings) :
  as_CBLSettings (this_settings p) = Some s ->
  exists s', as_CBLSettings (this_settings (onChange ev p)) = Some s'.
Proof.
  unfold as_CBLSettings.
  destruct (this_settings p !! "showLanguageAsLabel") as [[| b | | | |]|] eqn:Hs;
    try discriminate.
  destruct (this_settings p !! "ignoreLanguages") as [[| | | t | |]|] eqn:Hi;
    try discriminate; intros _; destruct ev; simpl;
    rewrite ?lookup_insert_eq; rewrite ?lookup_insert_ne by discriminate;
    rewrite ?Hs, ?Hi; eauto.
Qed.

(** X13: Settings that are of their declared type when loaded stay so under
    every edit of the form, and with them the routine, run as a method of
    the plugin, never throws: it is the routine on the typed settings. *)
Theorem typed_settings_kept (stored : option (gmap string JSValue))
    (loaded : CBLSettings) (events : list FormEvent)
    (getSectionInfo : option MarkdownSectionInformation) (w : World) :
  as_CBLSettings (loadSettings stored) = Some loaded ->
  exists settings w',
    as_CBLSettings (this_settings (session stored events)) = Some settings /\
    markdownPostProcessor_method (this_settings (session stored events))
      getSectionInfo w = Normal w' /\
    markdownPostProcessor settings getSectionInfo w = Normal w'.
Proof.
  intros Hloaded.
  assert (exists s, as_CBLSettings (this_settings (session stored events)) = Some s)
    as [s Hs].
  { induction events as [|ev events [s IH]] using rev_ind; [eauto|].
    rewrite session_snoc. now apply onChange_typed with (s := s). }
  exists s. eexists. split; [exact Hs|].
  unfold markdownPostProcessor_method.
  rewrite (as_CBLSettings_read _ _ Hs). cbn [bind].
  rewrite markdownPostProcessor_decision. split; reflexivity.
Qed.

Lemma typed_settings_kept_witness :
  exists settings w',
    as_CBLSettings
      (this_settings (session None [EditIgnore (js "mermaid");
                                    ToggleShowLanguage false]))
      = Some settings /\
    markdownPostProcessor_method
      (this_settings (session None [EditIgnore (js "mermaid");
                                    ToggleShowLanguage false]))
      (Some section_python) (fresh rendered_block) = Normal w' /\
    markdownPostProcessor settings (Some section_python)
      (fresh rendered_block) = Normal w'.
Proof.
  apply (typed_settings_kept None default_settings).
  vm_compute. reflexivity.
Defined.

(** X14: The routine run as a method throws exactly when [ignoreLanguages] holds
    a truthy value that is not a string, and then it throws on every
    rendered block, code block or not: the list is built before the first
    guard. *)
Theorem untyped_ignore_throws (o : gmap string JSValue)
    (getSectionInfo : option MarkdownSectionInformation) (w : World) :
  (exists e, markdownPostProcessor_method o getSectionInfo w = Throw e)
  <-> (exists v, o !! "ignoreLanguages" = Some v /\
                 ToBoolean (Some v) = true /\
                 forall s, v <> JString s).
Proof.
  unfold markdownPostProcessor_method, settings_read. split.
  - intros [e He].
    destruct (o !! "ignoreLanguages") as [v|] eqn:Hv.
    + exists v. split; [reflexivity|].
      destruct v as [| b | n | s | items | props];
        cbn [ToBoolean] in He |- *;
        try (cbn [bind] in He; rewrite markdownPostProcessor_decision in He;
             discriminate);
        try (split; [reflexivity | intros s'; discriminate]).
      * destruct b; [split; [reflexivity | intros s'; discriminate]|].
        cbn [bind] in He. rewrite markdownPostProcessor_decision in He.
        discriminate.
      * destruct (negb (n =? 0)%Z); [split; [reflexivity | intros s'; discriminate]|].
        cbn [bind] in He. rewrite markdownPostProcessor_decision in He.
        discriminate.
    + cbn [ToBoolean bind] in He.
      rewrite markdownPostProcessor_decision in He. discriminate.
  - intros (v & -> & Ht & Hns).
    destruct v as [| b | n | s | items | props]; cbn [ToBoolean] in Ht |- *;
      try discriminate; try (rewrite Ht); cbn [bind]; eauto.
    now destruct (Hns s).
Qed.

Lemma untyped_ignore_throws_witness :
  exists e,
    markdownPostProcessor_method {["ignoreLanguages" := JNumber 5]}
      (Some section_python) (fresh rendered_paragraph) = Throw e.
Proof.
  apply (proj2 (untyped_ignore_throws {["ignoreLanguages" := JNumber 5]}
                  (Some section_python) (fresh rendered_paragraph))).
  exists (JNumber 5). split; [reflexivity|]. split; [reflexivity|].
  intros s. discriminate.
Defined.
